(** * proctl: breakpoints and execution control of a traced process

    A shallow embedding of [proctl/proctl_linux_amd64.go].  The debugged
    process is reached only through the trace facility of the operating
    system, so the embedding has two layers:

    - the part of the Go libraries and of the kernel that the package calls
      ([debug/gosym] lookups, [syscall.Ptrace*], [os.Process.Wait]), modelled
      as operations on an explicit [Kernel] state;
    - the methods of [DebuggedProcess] themselves ([Registers], [Break],
      [Step], [Continue], [handleResult]), written in a small state monad
      that threads the session and the kernel and can panic. *)

From Stdlib Require Import ZArith Strings.Byte Ascii String Lia.
From stdpp Require Import gmap strings list pretty.

Open Scope Z_scope.
Open Scope string_scope.
Open Scope list_scope.

(** ** Machine integers *)

(** [uint64] and, on amd64, [uintptr] are 64-bit words: a [Z] reduced
    modulo [2^64]. *)
Definition wrap64 (z : Z) : Z := z mod 2 ^ 64.

Definition uintptr (z : Z) : Z := wrap64 z.

(** ** Errors *)

(** Go [error] values met in the package: a bare [syscall.Errno], or the
    value built by [fmt.Errorf] from a format string and its operands.  The
    operands are kept as they are passed, without rendering the message. *)
Inductive error : Type :=
| Errno (e : Z)
| Errorf (format : string) (args : list fmtarg)
with fmtarg : Type :=
| ArgString (s : string)
| ArgInt (z : Z)
| ArgError (e : error)
| ArgErrorText (e : error).   (* the string [e.Error()] *)

Definition ESRCH : error := Errno 3.
Definition EIO : error := Errno 5.

(** A Go result pair [(T, error)] of which exactly one side is set. *)
Inductive result (A : Type) : Type :=
| Ok (a : A)
| Err (e : error).
Arguments Ok {A} a.
Arguments Err {A} e.

(** ** The runtime symbol table ([debug/gosym]) *)

Module gosym.

Record LineTable : Type := {
  PC : Z;          (* uint64: the program counter the table starts at *)
  Line : Z         (* int: the source line at [PC] *)
}.

Record Sym : Type := {
  Value : Z;
  Name : string
}.

Record Func : Type := {
  Entry : Z;                   (* uint64 *)
  FSym : Sym;                  (* embedded [*Sym]: [fn.Name] is [fn.Sym.Name] *)
  End : Z;                     (* uint64 *)
  FLineTable : LineTable       (* [*LineTable] *)
}.

(** [Funcs] is kept sorted by entry address by the table builder; [FileLine]
    stands for the decoding of the pc/line section for a pc inside a
    function. *)
Record Table : Type := {
  Funcs : list Func;
  FileLine : Func -> Z -> string * Z
}.

(** [Table.LookupFunc]: the first function whose symbol has the name. *)
Fixpoint lookup (funcs : list Func) (name : string) : option Func :=
  match funcs with
  | [] => None
  | f :: rest => if decide (Name (FSym f) = name) then Some f else lookup rest name
  end.

Definition LookupFunc (t : Table) (name : string) : option Func :=
  lookup (Funcs t) name.

(** [Table.PCToFunc]: binary search over [Funcs]; each turn of the Go loop
    halves the slice, so its length bounds the number of turns. *)
Fixpoint PCToFuncLoop (fuel : nat) (funcs : list Func) (pc : Z) : option Func :=
  match fuel with
  | O => None
  | S fuel' =>
      match funcs with
      | [] => None
      | _ :: _ =>
          let m := (length funcs / 2)%nat in
          match funcs !! m with
          | None => None
          | Some fn =>
              if decide (pc < Entry fn) then PCToFuncLoop fuel' (take m funcs) pc
              else if decide (Entry fn <= pc /\ pc < End fn) then Some fn
              else PCToFuncLoop fuel' (drop (S m) funcs) pc
          end
      end
  end.

Definition PCToFunc (t : Table) (pc : Z) : option Func :=
  PCToFuncLoop (length (Funcs t)) (Funcs t) pc.

(** [Table.PCToLine]: [fn] is [None] (Go [nil]) when no function owns
    [pc], and then [file] and [line] are the zero values. *)
Definition PCToLine (t : Table) (pc : Z) : string * Z * option Func :=
  match PCToFunc t pc with
  | None => (EmptyString, 0, None)
  | Some fn => let '(file, line) := FileLine t fn pc in (file, line, Some fn)
  end.

End gosym.

(** ** The executable image ([debug/elf]) *)

(** The part of [debug/elf] the package uses: the sections of an opened
    file by name, the address of a section and the reading of its data. *)
Module elf.

Record Section : Type := {
  Name : string;
  Addr : Z;                          (* uint64 *)
  Data : result (list byte)          (* what [Section.Data()] returns *)
}.

Record File : Type := {
  Sections : list Section
}.

(** [elf.Symbol], an entry of the file's own symbol table. *)
Record Symbol : Type := {
  SymbolName : string;
  SymbolValue : Z
}.

(** [File.Section]: the first section of the name, or nil. *)
Fixpoint find (sections : list Section) (name : string) : option Section :=
  match sections with
  | [] => None
  | s :: rest => if decide (Name s = name) then Some s else find rest name
  end.

Definition SectionOf (f : File) (name : string) : option Section :=
  find (Sections f) name.

End elf.

(** ** The session's data *)

(** [syscall.PtraceRegs]: the register file of the tracee.  [PC()] reads
    [Rip], the only register the package looks at. *)
Record PtraceRegs : Type := {
  Rip : Z;
  Rsp : Z
}.

Definition RegsPC (r : PtraceRegs) : Z := Rip r.

(** [os.ProcessState]: what a wait reported about the process. *)
Inductive WaitStatus : Type :=
| Exited (code : Z)
| Signaled (sig : Z)
| Stopped (sig : Z)
| Continued.

Record OsProcessState : Type := {
  ps_pid : Z;
  ps_status : WaitStatus
}.

Record BreakPoint : Type := {
  FunctionName : string;
  Line : Z;
  Addr : Z
}.

(** [DebuggedProcess].  [Process] is the handle [os.FindProcess] returned,
    a pid; [Executable] is the opened image, nil until it is loaded;
    [Symbols] is assigned nowhere in the package and stays empty. *)
Record DebuggedProcess : Type := {
  Pid : Z;
  Regs : PtraceRegs;
  Process : Z;
  ProcessState : OsProcessState;
  Executable : option elf.File;
  Symbols : list elf.Symbol;
  GoSymTable : gosym.Table;
  BreakPoints : gmap string BreakPoint
}.

(** ** The trace facility *)

(** The calls the package makes into [syscall] and [os], as issued. *)
Inductive Request : Type :=
| PtracePokeDataReq (pid : Z) (addr : Z) (data : list byte)
| PtraceSingleStepReq (pid : Z)
| PtraceContReq (pid : Z) (signal : Z)
| PtraceGetRegsReq (pid : Z)
| WaitReq (pid : Z).

Inductive Resume : Type := SingleStep | Cont.

(** What the tracee does when it is resumed: the memory and registers it
    is left with and what the next wait reports.  The package has no
    influence on this beyond the memory it patched. *)
Record Run : Type := {
  run_mem : gmap Z byte;
  run_regs : PtraceRegs;
  run_wait : result WaitStatus
}.

(** The kernel's view of the one tracee: its mapped memory (an address
    outside the domain is unmapped), its registers, whether it is in a
    trace stop (a trace request on a tracee that is not fails with
    [ESRCH]), the event a wait would collect, how it behaves when resumed,
    and the requests issued so far, newest first. *)
Record Kernel : Type := {
  tracee : Z;
  mem : gmap Z byte;
  regs : PtraceRegs;
  stopped : bool;
  pending : option (result WaitStatus);
  cpu : Resume -> gmap Z byte -> PtraceRegs -> Run;
  log : list Request
}.

Definition record (q : Request) (k : Kernel) : Kernel :=
  {| tracee := tracee k; mem := mem k; regs := regs k; stopped := stopped k;
     pending := pending k; cpu := cpu k; log := q :: log k |}.

Definition set_mem (m : gmap Z byte) (k : Kernel) : Kernel :=
  {| tracee := tracee k; mem := m; regs := regs k; stopped := stopped k;
     pending := pending k; cpu := cpu k; log := log k |}.

Definition traceable (k : Kernel) (pid : Z) : bool :=
  bool_decide (pid = tracee k) && stopped k.

(** *** Memory access, one word at a time *)

Definition SizeofPtr : Z := 8.

Fixpoint loadBytes (m : gmap Z byte) (a : Z) (n : nat) : option (list byte) :=
  match n with
  | O => Some []
  | S n' =>
      match m !! a, loadBytes m (a + 1) n' with
      | Some b, Some bs => Some (b :: bs)
      | _, _ => None
      end
  end.

Fixpoint storeBytes (m : gmap Z byte) (a : Z) (bs : list byte) : gmap Z byte :=
  match bs with
  | [] => m
  | b :: bs' => storeBytes (<[a := b]> m) (a + 1) bs'
  end.

(** [PTRACE_PEEKDATA] and [PTRACE_POKEDATA] move one whole word and fail
    unless all of it is mapped. *)
Definition peekWord (m : gmap Z byte) (a : Z) : option (list byte) :=
  loadBytes m a (Z.to_nat SizeofPtr).

Definition pokeWord (m : gmap Z byte) (a : Z) (w : list byte) : option (gmap Z byte) :=
  match peekWord m a with
  | Some _ => Some (storeBytes m a w)
  | None => None
  end.

(** Go's [copy(buf[off:], data)]: the new buffer and the count copied. *)
Definition copyAt (buf : list byte) (off : nat) (data : list byte) : list byte * nat :=
  let n := Nat.min (length buf - off) (length data) in
  (take off buf ++ take n data ++ drop (off + n) buf, n).

(** The middle loop of [syscall.ptracePoke]: whole words while more than a
    word is left. *)
Fixpoint pokeInterior (fuel : nat) (m : gmap Z byte) (addr : Z) (n : nat)
    (data : list byte) : gmap Z byte * nat * list byte * option error :=
  match fuel with
  | O => (m, n, data, None)
  | S fuel' =>
      if decide (Z.to_nat SizeofPtr < length data)%nat then
        match pokeWord m (wrap64 (addr + Z.of_nat n)) (take (Z.to_nat SizeofPtr) data) with
        | None => (m, n, data, Some EIO)
        | Some m' =>
            pokeInterior fuel' m' addr (n + Z.to_nat SizeofPtr)
              (drop (Z.to_nat SizeofPtr) data)
        end
      else (m, n, data, None)
  end.

(** [syscall.ptracePoke]: an unaligned leading edge is read, patched and
    written back as a word; then whole words; then the trailing edge, again
    read, patched and written back.  The memory reached so far is kept when
    a later word fails. *)
Definition ptracePoke (m : gmap Z byte) (addr : Z) (data : list byte)
    : gmap Z byte * result nat :=
  let lead :=
    if decide (addr mod SizeofPtr = 0) then Some (m, O, data)
    else
      let base := addr - addr mod SizeofPtr in
      match peekWord m base with
      | None => None
      | Some buf =>
          let '(buf', n) := copyAt buf (Z.to_nat (addr mod SizeofPtr)) data in
          match pokeWord m base buf' with
          | None => None
          | Some m' => Some (m', n, drop n data)
          end
      end in
  match lead with
  | None => (m, Err EIO)
  | Some (m1, n1, data1) =>
      match pokeInterior (length data1) m1 addr n1 data1 with
      | (m2, _, _, Some e) => (m2, Err e)
      | (m2, n2, data2, None) =>
          match data2 with
          | [] => (m2, Ok n2)
          | _ :: _ =>
              let a := wrap64 (addr + Z.of_nat n2) in
              match peekWord m2 a with
              | None => (m2, Err EIO)
              | Some buf =>
                  let '(buf', _) := copyAt buf 0 data2 in
                  match pokeWord m2 a buf' with
                  | None => (m2, Err EIO)
                  | Some m3 => (m3, Ok (n2 + length data2)%nat)
                  end
              end
          end
      end
  end.

(** *** The calls *)

(** [syscall.PtracePokeData(pid, addr, data)]. *)
Definition PtracePokeData (pid addr : Z) (data : list byte) (k : Kernel)
    : result nat * Kernel :=
  let k := record (PtracePokeDataReq pid addr data) k in
  if traceable k pid then
    let '(m, r) := ptracePoke (mem k) addr data in (r, set_mem m k)
  else (Err ESRCH, k).

(** [syscall.PtraceGetRegs(pid, regsout)]: the register file, or an error
    and [regsout] untouched. *)
Definition PtraceGetRegs (pid : Z) (k : Kernel) : result PtraceRegs * Kernel :=
  let k := record (PtraceGetRegsReq pid) k in
  if traceable k pid then (Ok (regs k), k) else (Err ESRCH, k).

(** Resuming the tracee: it leaves its trace stop, runs as [cpu] says, and
    the event it ends with waits to be collected. *)
Definition resume (how : Resume) (k : Kernel) : Kernel :=
  let r := cpu k how (mem k) (regs k) in
  {| tracee := tracee k; mem := run_mem r; regs := run_regs r; stopped := false;
     pending := Some (run_wait r); cpu := cpu k; log := log k |}.

(** [syscall.PtraceSingleStep(pid)]. *)
Definition PtraceSingleStep (pid : Z) (k : Kernel) : option error * Kernel :=
  let k := record (PtraceSingleStepReq pid) k in
  if traceable k pid then (None, resume SingleStep k) else (Some ESRCH, k).

(** [syscall.PtraceCont(pid, signal)]. *)
Definition PtraceCont (pid signal : Z) (k : Kernel) : option error * Kernel :=
  let k := record (PtraceContReq pid signal) k in
  if traceable k pid then (None, resume Cont k) else (Some ESRCH, k).

(** [os.Process.Wait()] collects the pending event; the tracee is in a
    trace stop again exactly when the event is a stop.  With nothing to
    collect the call does not return. *)
Definition collect (st : result WaitStatus) (k : Kernel) : Kernel :=
  {| tracee := tracee k; mem := mem k; regs := regs k;
     stopped := match st with Ok (Stopped _) => true | _ => false end;
     pending := None; cpu := cpu k; log := log k |}.

Definition Wait (pid : Z) (k : Kernel) : option (result OsProcessState) * Kernel :=
  let k := record (WaitReq pid) k in
  if decide (pid = tracee k) then
    match pending k with
    | None => (None, k)
    | Some (Err e) => (Some (Err e), collect (Err e) k)
    | Some (Ok st) =>
        (Some (Ok {| ps_pid := pid; ps_status := st |}), collect (Ok st) k)
    end
  else (Some (Err (Errno 10)), k).

(** ** The state monad of the methods *)

(** Everything a method can touch: the session it is called on, the
    kernel, and what [fmt.Printf] wrote to standard output. *)
Record World : Type := {
  dbp : DebuggedProcess;
  os : Kernel;
  stdout : list (string * list fmtarg)
}.

(** A call returns, panics, or never returns (a wait with no event). *)
Inductive Outcome (A : Type) : Type :=
| Return (a : A)
| Panic (msg : string)
| Blocked.
Arguments Return {A} a.
Arguments Panic {A} msg.
Arguments Blocked {A}.

Definition M (A : Type) : Type := World -> Outcome A * World.

Definition ret {A : Type} (a : A) : M A := fun w => (Return a, w).

Definition bind {A B : Type} (c : M A) (k : A -> M B) : M B :=
  fun w =>
    match c w with
    | (Return a, w') => k a w'
    | (Panic msg, w') => (Panic msg, w')
    | (Blocked, w') => (Blocked, w')
    end.

Definition panic {A : Type} (msg : string) : M A := fun w => (Panic msg, w).

Notation "x <- c ;; k" := (bind c (fun x => k))
  (at level 100, c at next level, right associativity).
Notation "c ;;; k" := (bind c (fun _ => k))
  (at level 100, right associativity).

Definition this : M DebuggedProcess := fun w => (Return (dbp w), w).

Definition update (f : DebuggedProcess -> DebuggedProcess) : M unit :=
  fun w => (Return tt, {| dbp := f (dbp w); os := os w; stdout := stdout w |}).

Definition syscall {A : Type} (call : Kernel -> A * Kernel) : M A :=
  fun w =>
    let '(a, k) := call (os w) in
    (Return a, {| dbp := dbp w; os := k; stdout := stdout w |}).

Definition ProcessWait (pid : Z) : M (result OsProcessState) :=
  fun w =>
    let '(r, k) := Wait pid (os w) in
    let w' := {| dbp := dbp w; os := k; stdout := stdout w |} in
    match r with
    | Some r => (Return r, w')
    | None => (Blocked, w')
    end.

Definition Printf (format : string) (args : list fmtarg) : M unit :=
  fun w =>
    (Return tt, {| dbp := dbp w; os := os w; stdout := stdout w ++ [(format, args)] |}).

(** Field assignments on the session. *)
Definition withRegs (r : PtraceRegs) (d : DebuggedProcess) : DebuggedProcess :=
  {| Pid := Pid d; Regs := r; Process := Process d; ProcessState := ProcessState d;
     Executable := Executable d; Symbols := Symbols d;
     GoSymTable := GoSymTable d; BreakPoints := BreakPoints d |}.

Definition withProcessState (ps : OsProcessState) (d : DebuggedProcess) : DebuggedProcess :=
  {| Pid := Pid d; Regs := Regs d; Process := Process d; ProcessState := ps;
     Executable := Executable d; Symbols := Symbols d;
     GoSymTable := GoSymTable d; BreakPoints := BreakPoints d |}.

Definition withBreakPoint (key : string) (bp : BreakPoint) (d : DebuggedProcess)
    : DebuggedProcess :=
  {| Pid := Pid d; Regs := Regs d; Process := Process d; ProcessState := ProcessState d;
     Executable := Executable d; Symbols := Symbols d;
     GoSymTable := GoSymTable d; BreakPoints := <[key := bp]> (BreakPoints d) |}.

(** ** The methods of [DebuggedProcess] *)

Definition newline : string := String (ascii_of_nat 10) EmptyString.

(** [Registers]: [PtraceGetRegs] fills [*dbp.Regs] in place, and that same
    struct is what the caller gets. *)
Definition Registers : M (result PtraceRegs) :=
  d <- this ;;
  r <- syscall (PtraceGetRegs (Pid d)) ;;
  match r with
  | Err err => ret (Err (Errorf "Registers():" [ArgError err]))
  | Ok rs => update (withRegs rs) ;;; d <- this ;; ret (Ok (Regs d))
  end.

(** The bytes [Break] writes: the four characters of the text [0xCC]. *)
Definition int3 : list byte :=
  [byte_of_ascii "0"; byte_of_ascii "x"; byte_of_ascii "C"; byte_of_ascii "C"].

Definition Break (fname : string) : M (result BreakPoint) :=
  d <- this ;;
  match gosym.LookupFunc (GoSymTable d) fname with
  | None => ret (Err (Errorf ("No function named %s" ++ newline)%string [ArgString fname]))
  | Some fn =>
      match BreakPoints d !! fname with
      | Some _ => ret (Err (Errorf "Breakpoint already set" []))
      | None =>
          let addr := uintptr (gosym.PC (gosym.FLineTable fn)) in
          r <- syscall (PtracePokeData (Pid d) addr int3) ;;
          match r with
          | Err err => ret (Err err)
          | Ok _ =>
              let breakpoint :=
                {| FunctionName := gosym.Name (gosym.FSym fn);
                   Line := gosym.Line (gosym.FLineTable fn);
                   Addr := gosym.PC (gosym.FLineTable fn) |} in
              update (withBreakPoint fname breakpoint) ;;;
              ret (Ok breakpoint)
          end
      end
  end.

Definition handleResult (err : option error) : M (option error) :=
  match err with
  | Some e => ret (Some e)
  | None =>
      d <- this ;;
      r <- ProcessWait (Process d) ;;
      match r with
      | Err e => ret (Some e)
      | Ok ps => update (withProcessState ps) ;;; ret None
      end
  end.

(** [Step].  [fn.Name] is read through the pointer [PCToLine] returned:
    with no owning function that pointer is nil and the read panics. *)
Definition Step : M (option error) :=
  d <- this ;;
  e <- syscall (PtraceSingleStep (Pid d)) ;;
  err <- handleResult e ;;
  match err with
  | Some err => ret (Some (Errorf "step failed: " [ArgErrorText err]))
  | None =>
      r <- Registers ;;
      match r with
      | Err err => ret (Some err)
      | Ok regs =>
          d <- this ;;
          let '(f, l, fn) := gosym.PCToLine (GoSymTable d) (RegsPC regs) in
          match fn with
          | None => panic "invalid memory address or nil pointer dereference"
          | Some fn =>
              Printf ("Stopped at: %s %s:%d" ++ newline)%string
                [ArgString (gosym.Name (gosym.FSym fn)); ArgString f; ArgInt l] ;;;
              ret None
          end
      end
  end.

Definition Continue : M (option error) :=
  d <- this ;;
  e <- syscall (PtraceCont (Pid d) 0) ;;
  handleResult e.

(** ** Properties stated over the model *)

(** [m'] is [m] with [data] stored from [addr] on, addresses wrapping as
    [uintptr] arithmetic does, and nothing else changed. *)
Definition patched (m m' : gmap Z byte) (addr : Z) (data : list byte) : Prop :=
  (forall (i : nat) (b : byte),
      data !! i = Some b -> m' !! wrap64 (addr + Z.of_nat i) = Some b) /\
  (forall a : Z,
      (forall i : nat, (i < length data)%nat -> a <> wrap64 (addr + Z.of_nat i)) ->
      m' !! a = m !! a).

(** The breakpoint [Break] records for a function. *)
Definition breakpointOf (fn : gosym.Func) : BreakPoint :=
  {| FunctionName := gosym.Name (gosym.FSym fn);
     Line := gosym.Line (gosym.FLineTable fn);
     Addr := gosym.PC (gosym.FLineTable fn) |}.

(** Every recorded breakpoint was built from the function its key names. *)
Definition resolved (d : DebuggedProcess) : Prop :=
  forall (fname : string) (bp : BreakPoint),
    BreakPoints d !! fname = Some bp ->
    exists fn, gosym.LookupFunc (GoSymTable d) fname = Some fn /\ bp = breakpointOf fn.

(** The calls a client can make on a session. *)
Inductive Call : Type :=
| CallRegisters
| CallBreak (fname : string)
| CallStep
| CallContinue.

Definition perform (c : Call) (w : World) : World :=
  match c with
  | CallRegisters => snd (Registers w)
  | CallBreak fname => snd (Break fname w)
  | CallStep => snd (Step w)
  | CallContinue => snd (Continue w)
  end.

(** The session states a client can bring about: [NewDebugProcess] starts
    with an empty breakpoint map, then calls are made; between calls the
    kernel and the output may change in any way, the session does not. *)
Inductive reachable : World -> Prop :=
| reach_new (w : World) :
    BreakPoints (dbp w) = ∅ -> reachable w
| reach_call (w : World) (c : Call) :
    reachable w -> reachable (perform c w)
| reach_env (w w' : World) :
    reachable w -> dbp w' = dbp w -> reachable w'.

(** The target's process has gone: what a wait reported was an exit or a
    killing signal. *)
Definition terminated (ps : OsProcessState) : Prop :=
  match ps_status ps with
  | Exited _ | Signaled _ => True
  | Stopped _ | Continued => False
  end.

Definition isPoke (q : Request) : bool :=
  match q with
  | PtracePokeDataReq _ _ _ => true
  | _ => false
  end.

(** The world once request [q] has been issued and nothing else has
    happened. *)
Definition issued (q : Request) (w : World) : World :=
  {| dbp := dbp w; os := record q (os w); stdout := stdout w |}.

(** The world once request [q] has been granted and the target runs. *)
Definition resumed (how : Resume) (q : Request) (w : World) : World :=
  {| dbp := dbp w; os := resume how (record q (os w)); stdout := stdout w |}.

(** ** A concrete session *)

(** One function, [main.compute] at [0x4010a0], in a target with pid 42. *)
Module Scenario.

Definition SIGTRAP : Z := 5.
Definition SIGSTOP : Z := 19.

Definition compute (tablePC : Z) : gosym.Func :=
  {| gosym.Entry := 0x4010a0;
     gosym.FSym := {| gosym.Value := 0x4010a0; gosym.Name := "main.compute" |};
     gosym.End := 0x4010c0;
     gosym.FLineTable := {| gosym.PC := tablePC; gosym.Line := 12 |} |}.

(** [tablePC] is where the line table of [main.compute] starts: at the
    function's entry when every function has a table of its own, at the
    base of the text section when all functions share one table. *)
Definition table (tablePC : Z) : gosym.Table :=
  {| gosym.Funcs := [compute tablePC];
     gosym.FileLine := fun _ _ => ("main.go", 12) |}.

(** The text section from [0x401000]; the first instruction of
    [main.compute] starts with [first]. *)
Definition text (first : byte) : gmap Z byte :=
  storeBytes (storeBytes ∅ 0x401000 [x90; x90; x90; x90; x90; x90; x90; xc3])
    0x4010a0 [first; x48; x89; xe5; x5d; xc3; x90; x90].

(** A tracee that, however resumed, ends with its program counter at
    [pc] and the event [event]. *)
Definition lands (pc : Z) (event : result WaitStatus)
    : Resume -> gmap Z byte -> PtraceRegs -> Run :=
  fun _ m r =>
    {| run_mem := m; run_regs := {| Rip := pc; Rsp := Rsp r |}; run_wait := event |}.

Definition kernel (first : byte) (alive : bool) (pc next : Z)
    (event : result WaitStatus) : Kernel :=
  {| tracee := 42; mem := text first; regs := {| Rip := pc; Rsp := 0x7ffc0000 |};
     stopped := alive; pending := None; cpu := lands next event; log := [] |}.

(** The image the target was started from: its text section as the file
    has it, [main.compute] at offset [0xa0] starting with [55], and the two
    sections of the symbol table. *)
Definition imageText : list byte :=
  [x90; x90; x90; x90; x90; x90; x90; xc3] ++ replicate 152 x90
  ++ [x55; x48; x89; xe5; x5d; xc3; x90; x90].

Definition image : elf.File :=
  {| elf.Sections :=
       [ {| elf.Name := ".text"; elf.Addr := 0x401000; elf.Data := Ok imageText |};
         {| elf.Name := ".gopclntab"; elf.Addr := 0x4a1000;
            elf.Data := Ok [xfb; xff; xff; xff] |};
         {| elf.Name := ".gosymtab"; elf.Addr := 0x4a0000; elf.Data := Ok [] |} ] |}.

Definition session (tablePC : Z) (st : WaitStatus) (bps : gmap string BreakPoint)
    : DebuggedProcess :=
  {| Pid := 42; Regs := {| Rip := 0; Rsp := 0 |}; Process := 42;
     ProcessState := {| ps_pid := 42; ps_status := st |};
     Executable := Some image; Symbols := [];
     GoSymTable := table tablePC; BreakPoints := bps |}.

(** Freshly attached and stopped at [pc]; resumed, the target stops at
    [next] on a trap.  [first] is the first byte of [main.compute]. *)
Definition attached (first : byte) (pc next : Z) : World :=
  {| dbp := session 0x4010a0 (Stopped SIGSTOP) ∅;
     os := kernel first true pc next (Ok (Stopped SIGTRAP));
     stdout := [] |}.

(** The same target seen through a table whose functions share one line
    table starting at the base of the text section. *)
Definition attachedShared : World :=
  {| dbp := session 0x401000 (Stopped SIGSTOP) ∅;
     os := kernel x55 true 0x401000 0x401001 (Ok (Stopped SIGTRAP));
     stdout := [] |}.

(** A breakpoint has been set on [main.compute]. *)
Definition armed (pc next : Z) : World :=
  perform (CallBreak "main.compute") (attached x55 pc next).

(** A target that runs to its end when resumed, and the session once
    [Continue] has seen it exit. *)
Definition exiting : World :=
  {| dbp := session 0x4010a0 (Stopped SIGSTOP) ∅;
     os := kernel x55 true 0x4010a0 0x4010a5 (Ok (Exited 0));
     stdout := [] |}.

Definition exited : World := perform CallContinue exiting.

End Scenario.

(** ** Creating the session *)

(** [gosym.NewLineTable(data, text)]: a line table over [data] that starts
    at [text], line 0; the data is kept beside the record. *)
Definition NewLineTable (data : list byte) (text : Z) : list byte * gosym.LineTable :=
  (data, {| gosym.PC := text; gosym.Line := 0 |}).

(** What [NewDebugProcess] asks of the host besides the trace requests. *)
Inductive Setup : Type :=
| AttachCall (pid : Z)
| OpenCall (path : string).

(** The host before a session exists: the target as the kernel sees it,
    the reason, if any, for which the kernel refuses an attach, what the
    wait after a granted attach reports, the files by path (what [os.Open]
    gives), the parsers of [debug/elf] and [debug/gosym], and the calls made
    so far, newest first. *)
Record Host : Type := {
  target : Kernel;
  refusal : Z -> option error;
  arrival : result WaitStatus;
  openFile : string -> result (list byte);
  NewFile : list byte -> result elf.File;
  NewTable : list byte -> list byte * gosym.LineTable -> result gosym.Table;
  trail : list Setup
}.

Definition note (c : Setup) (h : Host) : Host :=
  {| target := target h; refusal := refusal h; arrival := arrival h;
     openFile := openFile h; NewFile := NewFile h; NewTable := NewTable h;
     trail := c :: trail h |}.

Definition withTarget (k : Kernel) (h : Host) : Host :=
  {| target := k; refusal := refusal h; arrival := arrival h;
     openFile := openFile h; NewFile := NewFile h; NewTable := NewTable h;
     trail := trail h |}.

(** [os.FindProcess]: on this platform it always succeeds. *)
Definition FindProcess (pid : Z) : result Z := Ok pid.

(** [syscall.PtraceAttach(pid)]: a granted attach sends the target the
    stop signal; what the next wait collects is the stop, or whatever else
    became of the target or of the wait. *)
Definition attaching (event : result WaitStatus) (k : Kernel) : Kernel :=
  {| tracee := tracee k; mem := mem k; regs := regs k; stopped := stopped k;
     pending := Some event; cpu := cpu k; log := log k |}.

Definition PtraceAttach (pid : Z) (h : Host) : option error * Host :=
  let h := note (AttachCall pid) h in
  if decide (pid = tracee (target h)) then
    match refusal h pid with
    | Some e => (Some e, h)
    | None => (None, withTarget (attaching (arrival h) (target h)) h)
    end
  else (Some ESRCH, h).

(** [os.Open(path)]. *)
Definition Open (path : string) (h : Host) : result (list byte) * Host :=
  let h := note (OpenCall path) h in (openFile h path, h).

(** [DebuggedProcess] while it is being built: the two pointers that
    [LoadInformation] fills are nil until then. *)
Record Loading : Type := {
  l_Pid : Z;
  l_Regs : PtraceRegs;
  l_Process : Z;
  l_ProcessState : OsProcessState;
  l_Executable : option elf.File;
  l_Symbols : list elf.Symbol;
  l_GoSymTable : option gosym.Table;
  l_BreakPoints : gmap string BreakPoint
}.

Definition withExecutable (f : elf.File) (d : Loading) : Loading :=
  {| l_Pid := l_Pid d; l_Regs := l_Regs d; l_Process := l_Process d;
     l_ProcessState := l_ProcessState d; l_Executable := Some f;
     l_Symbols := l_Symbols d;
     l_GoSymTable := l_GoSymTable d; l_BreakPoints := l_BreakPoints d |}.

Definition withGoSymTable (t : gosym.Table) (d : Loading) : Loading :=
  {| l_Pid := l_Pid d; l_Regs := l_Regs d; l_Process := l_Process d;
     l_ProcessState := l_ProcessState d; l_Executable := l_Executable d;
     l_Symbols := l_Symbols d;
     l_GoSymTable := Some t; l_BreakPoints := l_BreakPoints d |}.

Definition nilDereference : string := "invalid memory address or nil pointer dereference".

(** [fmt.Sprintf("/proc/%d/exe", pid)]. *)
Definition procpath (pid : Z) : string := ("/proc/" ++ pretty pid ++ "/exe")%string.

(** The three loading methods take the session under construction and the
    host, and give back both. *)
Definition findExecutable (d : Loading) (h : Host) : Outcome (option error) * Loading * Host :=
  match Open (procpath (l_Pid d)) h with
  | (Err err, h1) => (Return (Some err), d, h1)
  | (Ok f, h1) =>
      match NewFile h1 f with
      | Err err => (Return (Some err), d, h1)
      | Ok elffile => (Return None, withExecutable elffile d, h1)
      end
  end.

(** [obtainGoSymbols].  [Section] returns nil for a name the file does not
    have, and both [Data()] and [.Addr] read through that pointer. *)
Definition obtainGoSymbols (d : Loading) (h : Host) : Outcome (option error) * Loading * Host :=
  match l_Executable d with
  | None => (Panic nilDereference, d, h)
  | Some exe =>
      match elf.SectionOf exe ".gosymtab" with
      | None => (Panic nilDereference, d, h)
      | Some symtab =>
          match elf.Data symtab with
          | Err err => (Return (Some err), d, h)
          | Ok symdat =>
              match elf.SectionOf exe ".gopclntab" with
              | None => (Panic nilDereference, d, h)
              | Some pclntab =>
                  match elf.Data pclntab with
                  | Err err => (Return (Some err), d, h)
                  | Ok pclndat =>
                      match elf.SectionOf exe ".text" with
                      | None => (Panic nilDereference, d, h)
                      | Some text =>
                          let pcln := NewLineTable pclndat (elf.Addr text) in
                          match NewTable h symdat pcln with
                          | Err err => (Return (Some err), d, h)
                          | Ok tab => (Return None, withGoSymTable tab d, h)
                          end
                      end
                  end
              end
          end
      end
  end.

Definition LoadInformation (d : Loading) (h : Host) : Outcome (option error) * Loading * Host :=
  match findExecutable d h with
  | (Return None, d1, h1) => obtainGoSymbols d1 h1
  | failed => failed
  end.

(** [NewDebugProcess]: attach, wait for the stop, build the struct, load. *)
Definition NewDebugProcess (pid : Z) (h : Host) : Outcome (result Loading) * Host :=
  match FindProcess pid with
  | Err err => (Return (Err err), h)
  | Ok proc =>
      match PtraceAttach pid h with
      | (Some err, h1) => (Return (Err err), h1)
      | (None, h1) =>
          match Wait proc (target h1) with
          | (None, k) => (Blocked, withTarget k h1)
          | (Some (Err err), k) => (Return (Err err), withTarget k h1)
          | (Some (Ok ps), k) =>
              let debuggedProc :=
                {| l_Pid := pid; l_Regs := {| Rip := 0; Rsp := 0 |}; l_Process := proc;
                   l_ProcessState := ps; l_Executable := None; l_Symbols := [];
                   l_GoSymTable := None; l_BreakPoints := ∅ |} in
              match LoadInformation debuggedProc (withTarget k h1) with
              | (Return (Some err), _, h2) => (Return (Err err), h2)
              | (Return None, d, h2) => (Return (Ok d), h2)
              | (Panic msg, _, h2) => (Panic msg, h2)
              | (Blocked, _, h2) => (Blocked, h2)
              end
          end
      end
  end.

(** The session the methods work on, once [NewDebugProcess] has returned
    it: defined when the symbol table has been loaded. *)
Definition ready (d : Loading) : option DebuggedProcess :=
  match l_GoSymTable d with
  | None => None
  | Some tab =>
      Some {| Pid := l_Pid d; Regs := l_Regs d; Process := l_Process d;
              ProcessState := l_ProcessState d; Executable := l_Executable d;
              Symbols := l_Symbols d; GoSymTable := tab;
              BreakPoints := l_BreakPoints d |}
  end.

(** The struct [NewDebugProcess] builds before loading, and the host once
    the attach was granted and the wait has returned. *)
Definition blank (pid : Z) (st : WaitStatus) : Loading :=
  {| l_Pid := pid; l_Regs := {| Rip := 0; Rsp := 0 |}; l_Process := pid;
     l_ProcessState := {| ps_pid := pid; ps_status := st |};
     l_Executable := None; l_Symbols := []; l_GoSymTable := None; l_BreakPoints := ∅ |}.

Definition attachedHost (pid : Z) (h : Host) : Host :=
  withTarget
    (collect (arrival h) (record (WaitReq pid) (attaching (arrival h) (target h))))
    (note (AttachCall pid) h).

(** ** Sequences of calls *)

Definition performAll (calls : list Call) (w : World) : World :=
  foldl (fun w c => perform c w) w calls.

(** A table as the builder leaves it: entries ascending, no function
    reaching into the next. *)
Definition ascending (funcs : list gosym.Func) : Prop :=
  forall (i j : nat) (f g : gosym.Func),
    funcs !! i = Some f -> funcs !! j = Some g -> (i < j)%nat ->
    gosym.Entry f < gosym.Entry g /\ gosym.End f <= gosym.Entry g.

(** A host with one Go program running as pid 42. *)
Module Startup.

Definition symtab : list byte := [x01; x02].
Definition pclntab : list byte := [xfb; xff; xff; xff].

Definition executable (sections : list elf.Section) : elf.File :=
  {| elf.Sections := sections |}.

Definition gosymtabSection : elf.Section :=
  {| elf.Name := ".gosymtab"; elf.Addr := 0x4a0000; elf.Data := Ok symtab |}.
Definition gopclntabSection : elf.Section :=
  {| elf.Name := ".gopclntab"; elf.Addr := 0x4a1000; elf.Data := Ok pclntab |}.
Definition textSection : elf.Section :=
  {| elf.Name := ".text"; elf.Addr := 0x401000; elf.Data := Ok [x90] |}.

(** The symbol table parser: every function shares the line table it is
    given. *)
Definition parse (symdat : list byte) (pcln : list byte * gosym.LineTable)
    : result gosym.Table :=
  Ok {| gosym.Funcs :=
          [ {| gosym.Entry := 0x4010a0;
               gosym.FSym := {| gosym.Value := 0x4010a0; gosym.Name := "main.compute" |};
               gosym.End := 0x4010c0;
               gosym.FLineTable := snd pcln |} ];
        gosym.FileLine := fun _ _ => ("main.go", 12) |}.

Definition running : Kernel :=
  {| tracee := 42; mem := Scenario.text x55; regs := {| Rip := 0x4010a0; Rsp := 0x7ffc0000 |};
     stopped := false; pending := None;
     cpu := Scenario.lands 0x4010a1 (Ok (Stopped Scenario.SIGTRAP)); log := [] |}.

Definition host (refused : option error) (event : result WaitStatus)
    (sections : list elf.Section) : Host :=
  {| target := running;
     refusal := fun _ => refused;
     arrival := event;
     openFile := fun path =>
       if decide (path = "/proc/42/exe") then Ok [x7f; x45; x4c; x46] else Err (Errno 2);
     NewFile := fun _ => Ok (executable sections);
     NewTable := parse;
     trail := [] |}.

Definition goProgram : list elf.Section :=
  [textSection; gopclntabSection; gosymtabSection].

Definition stop : result WaitStatus := Ok (Stopped Scenario.SIGSTOP).

End Startup.

(** * Theorems *)

(** ** The trace facility *)

Lemma int3_bytes : int3 = [x30; x78; x43; x43].
Proof. reflexivity. Qed.

Lemma wrap64_small (z : Z) : 0 <= z < 2 ^ 64 -> wrap64 z = z.
Proof. intros H. unfold wrap64. apply Z.mod_small. exact H. Qed.

Lemma wrap64_range (z : Z) : 0 <= wrap64 z < 2 ^ 64.
Proof. unfold wrap64. apply Z.mod_pos_bound. lia. Qed.

Lemma storeBytes_lookup (bs : list byte) (m : gmap Z byte) (a x : Z) :
  storeBytes m a bs !! x =
  if decide (a <= x < a + Z.of_nat (length bs)) then bs !! Z.to_nat (x - a) else m !! x.
Proof.
  revert m a. induction bs as [|b bs IH]; intros m a; simpl.
  - case_decide; [lia | reflexivity].
  - rewrite IH. case_decide as H1; case_decide as H2; try lia.
    + replace (Z.to_nat (x - a)) with (S (Z.to_nat (x - (a + 1)))) by lia.
      reflexivity.
    + assert (x = a) as -> by lia.
      rewrite lookup_insert_eq. replace (a - a) with 0 by lia. reflexivity.
    + rewrite lookup_insert_ne by lia. reflexivity.
Qed.

Lemma loadBytes_lookup (n : nat) (m : gmap Z byte) (a : Z) (bs : list byte) :
  loadBytes m a n = Some bs ->
  length bs = n /\
  forall i : nat, (i < n)%nat -> m !! (a + Z.of_nat i) = bs !! i.
Proof.
  revert a bs. induction n as [|n IH]; intros a bs; simpl.
  - intros [= <-]. split; [reflexivity | lia].
  - destruct (m !! a) as [b|] eqn:Hb; [|discriminate].
    destruct (loadBytes m (a + 1) n) as [bs'|] eqn:Hbs; [|discriminate].
    intros [= <-]. destruct (IH _ _ Hbs) as [Hlen Hget]. split.
    + simpl. lia.
    + intros [|i] Hi; simpl.
      * replace (a + Z.of_nat 0) with a by lia. exact Hb.
      * rewrite <- Hget by lia. f_equal. lia.
Qed.

(** A word that was read, patched from [off] on and written back differs
    from what was there only in the patched bytes. *)
Lemma peek_patch_poke (m : gmap Z byte) (a : Z) (buf : list byte) (off : nat)
    (data : list byte) :
  peekWord m a = Some buf ->
  (off <= 8)%nat ->
  let '(buf', n) := copyAt buf off data in
  n = Nat.min (8 - off) (length data) /\
  exists m', pokeWord m a buf' = Some m' /\
    forall x : Z,
      m' !! x =
      if decide (a + Z.of_nat off <= x < a + Z.of_nat off + Z.of_nat n)
      then data !! Z.to_nat (x - a - Z.of_nat off)
      else m !! x.
Proof.
  intros Hpeek Hoff. unfold copyAt.
  pose proof Hpeek as Hload. unfold peekWord in Hload.
  apply loadBytes_lookup in Hload. change (Z.to_nat SizeofPtr) with 8%nat in Hload.
  destruct Hload as [Hlen Hget]. rewrite Hlen.
  set (n := Nat.min (8 - off) (length data)).
  split; [reflexivity|].
  unfold pokeWord. rewrite Hpeek. eexists. split; [reflexivity|].
  intros x. rewrite storeBytes_lookup.
  assert (length (take off buf ++ take n data ++ drop (off + n) buf) = 8%nat) as Hl.
  { rewrite !length_app, !length_take, length_drop. lia. }
  rewrite Hl.
  case_decide as Hin.
  - case_decide as Hp.
    + rewrite lookup_app_r by (rewrite length_take; lia).
      rewrite length_take, Hlen.
      rewrite lookup_app_l by (rewrite length_take; lia).
      rewrite lookup_take_lt by lia. f_equal. lia.
    + destruct (decide (x < a + Z.of_nat off)) as [Hlt|Hge].
      * rewrite lookup_app_l by (rewrite length_take; lia).
        rewrite lookup_take_lt by lia. rewrite <- Hget by lia. f_equal. lia.
      * rewrite lookup_app_r by (rewrite length_take; lia).
        rewrite length_take, Hlen.
        rewrite lookup_app_r by (rewrite length_take; lia).
        rewrite length_take. rewrite lookup_drop.
        rewrite <- Hget by lia. f_equal. lia.
  - case_decide as Hp; [lia | reflexivity].
Qed.

Lemma pokeInterior_short (fuel : nat) (m : gmap Z byte) (addr : Z) (n : nat)
    (data : list byte) :
  (length data <= 8)%nat -> pokeInterior fuel m addr n data = (m, n, data, None).
Proof.
  intros Hlen. destruct fuel as [|fuel]; simpl; [reflexivity|].
  change (Z.to_nat SizeofPtr) with 8%nat.
  case_decide; [lia | reflexivity].
Qed.

Ltac mod_lia :=
  unfold wrap64, SizeofPtr in *; change (2 ^ 64) with 18446744073709551616 in *;
  simpl length in *;
  Z.div_mod_to_equations; lia.

Ltac index_to z :=
  first [ replace z with 0 by mod_lia | replace z with 1 by mod_lia
        | replace z with 2 by mod_lia | replace z with 3 by mod_lia ].

Ltac pick Hi :=
  match goal with |- _ !! Z.to_nat ?z = _ => index_to z end; exact Hi.

Ltac four_bytes i Hi :=
  destruct i as [|[|[|[|i]]]]; simpl in Hi; try discriminate.

Ltac frame Ha :=
  pose proof (Ha 0%nat ltac:(simpl; lia));
  pose proof (Ha 1%nat ltac:(simpl; lia));
  pose proof (Ha 2%nat ltac:(simpl; lia));
  pose proof (Ha 3%nat ltac:(simpl; lia)).

(** The patch fitted into the word already rewritten. *)
Ltac one_word Hm1 :=
  intros [= <- <-]; split; [reflexivity|]; split;
  [ intros i b Hi; rewrite Hm1; four_bytes i Hi;
    (case_decide; [pick Hi | exfalso; mod_lia])
  | intros a Ha; rewrite Hm1; case_decide; [exfalso; frame Ha; mod_lia | reflexivity] ].

(** The patch runs over into the next word, rewritten by the trailing edge. *)
Ltac two_words m1 Hm1 :=
  match goal with
  | |- context [peekWord m1 ?a2] =>
      let buf2 := fresh "buf2" in let Hpeek2 := fresh "Hpeek2" in
      let Hp2 := fresh "Hp2" in let buf2' := fresh "buf2'" in
      let k2 := fresh "k2" in let Hk2 := fresh "Hk2" in
      let m2 := fresh "m2" in let Hm2 := fresh "Hm2" in
      destruct (peekWord m1 a2) as [buf2|] eqn:Hpeek2; [|discriminate];
      match goal with
      | |- context [copyAt buf2 0 ?data1] =>
          pose proof (peek_patch_poke m1 a2 buf2 0 data1 Hpeek2 ltac:(lia)) as Hp2;
          destruct (copyAt buf2 0 data1) as [buf2' k2];
          destruct Hp2 as (Hk2 & m2 & -> & Hm2); simpl in Hk2; subst k2
      end;
      intros [= <- <-]; split; [reflexivity|]; split;
      [ intros i b Hi; rewrite Hm2; four_bytes i Hi;
        (case_decide;
         [ first [pick Hi | exfalso; mod_lia]
         | rewrite Hm1; case_decide;
           [first [pick Hi | exfalso; mod_lia] | exfalso; mod_lia] ])
      | intros a Ha; rewrite Hm2;
        case_decide; [exfalso; frame Ha; mod_lia|];
        rewrite Hm1; case_decide; [exfalso; frame Ha; mod_lia | reflexivity] ]
  end.

(** A successful poke of the four bytes of [int3] stores exactly them,
    whatever the alignment of [addr]. *)
Lemma ptracePoke_int3 (m m' : gmap Z byte) (addr : Z) (n : nat) :
  0 <= addr < 2 ^ 64 ->
  ptracePoke m addr int3 = (m', Ok n) ->
  n = 4%nat /\ patched m m' addr int3.
Proof.
  intros Haddr. unfold ptracePoke, patched. rewrite int3_bytes.
  remember (addr mod SizeofPtr) as r eqn:Er.
  case_decide as Hr.
  - rewrite pokeInterior_short by (simpl; lia).
    destruct (peekWord m (wrap64 (addr + Z.of_nat 0))) as [buf|] eqn:Hpeek;
      [|discriminate].
    pose proof (peek_patch_poke m _ buf 0 [x30; x78; x43; x43] Hpeek ltac:(lia)) as Hp.
    destruct (copyAt buf 0 [x30; x78; x43; x43]) as [buf' k].
    destruct Hp as (Hk & m1 & -> & Hm1). simpl in Hk. subst k.
    one_word Hm1.
  - assert (r = 1 \/ r = 2 \/ r = 3 \/ r = 4 \/ r = 5 \/ r = 6 \/ r = 7)
      as Hcases by mod_lia.
    destruct (peekWord m (addr - r)) as [buf|] eqn:Hpeek; [|discriminate].
    pose proof (peek_patch_poke m _ buf (Z.to_nat r) [x30; x78; x43; x43] Hpeek
                  ltac:(lia)) as Hp.
    destruct (copyAt buf (Z.to_nat r) [x30; x78; x43; x43]) as [buf' k].
    destruct Hp as (Hk & m1 & -> & Hm1).
    rewrite pokeInterior_short by (rewrite length_drop; simpl; lia).
    destruct Hcases as [Hv|[Hv|[Hv|[Hv|[Hv|[Hv|Hv]]]]]];
      rewrite Hv in Hk, Hm1; simpl in Hk; subst k; simpl drop; cbv iota.
    + one_word Hm1.
    + one_word Hm1.
    + one_word Hm1.
    + one_word Hm1.
    + two_words m1 Hm1.
    + two_words m1 Hm1.
    + two_words m1 Hm1.
Qed.

(** Sixteen mapped bytes; a poke at [0x4010a6] straddles the two words. *)
Example ptracePoke_across_words :
  let m := storeBytes ∅ 0x4010a0
             [x00; x01; x02; x03; x04; x05; x06; x07;
              x08; x09; x0a; x0b; x0c; x0d; x0e; x0f] in
  let '(m', r) := ptracePoke m 0x4010a6 int3 in
  r = Ok 4%nat /\
  loadBytes m' 0x4010a0 16
  = Some [x00; x01; x02; x03; x04; x05; x30; x78;
          x43; x43; x0a; x0b; x0c; x0d; x0e; x0f].
Proof. vm_compute. split; reflexivity. Qed.

(** With the second word unmapped the poke fails, the first word already
    rewritten. *)
Example ptracePoke_half_done :
  let m := storeBytes ∅ 0x4010a0 [x00; x01; x02; x03; x04; x05; x06; x07] in
  let '(m', r) := ptracePoke m 0x4010a6 int3 in
  r = Err EIO /\
  loadBytes m' 0x4010a0 8 = Some [x00; x01; x02; x03; x04; x05; x30; x78].
Proof. vm_compute. split; reflexivity. Qed.

Lemma PCToFuncLoop_step (fuel : nat) (funcs : list gosym.Func) (pc : Z) :
  gosym.PCToFuncLoop (S fuel) funcs pc =
  match funcs with
  | [] => None
  | _ :: _ =>
      match funcs !! (length funcs / 2)%nat with
      | None => None
      | Some fn =>
          if decide (pc < gosym.Entry fn)
          then gosym.PCToFuncLoop fuel (take (length funcs / 2)%nat funcs) pc
          else if decide (gosym.Entry fn <= pc /\ pc < gosym.End fn) then Some fn
          else gosym.PCToFuncLoop fuel (drop (S (length funcs / 2)%nat) funcs) pc
      end
  end.
Proof. reflexivity. Qed.

(** The binary search returns only a function that owns the pc. *)
Lemma PCToFuncLoop_owns (fuel : nat) (funcs : list gosym.Func) (pc : Z) (fn : gosym.Func) :
  gosym.PCToFuncLoop fuel funcs pc = Some fn ->
  fn ∈ funcs /\ gosym.Entry fn <= pc < gosym.End fn.
Proof.
  revert funcs. induction fuel as [|fuel IH]; intros funcs; [discriminate|].
  rewrite PCToFuncLoop_step.
  destruct funcs as [|f0 rest]; [discriminate|].
  generalize (f0 :: rest). intros l.
  destruct (l !! (length l / 2)%nat) as [g|] eqn:Hg; [|discriminate].
  destruct (decide (pc < gosym.Entry g)) as [Hlt|Hge].
  - intros Hs. destruct (IH _ Hs) as [Hin Hown]. split; [|exact Hown].
    exact (subseteq_take _ _ _ Hin).
  - destruct (decide (gosym.Entry g <= pc /\ pc < gosym.End g)) as [Hown|Hnot].
    + intros [= <-]. split; [|exact Hown].
      eapply list_elem_of_lookup_2; exact Hg.
    + intros Hs. destruct (IH _ Hs) as [Hin Hown]. split; [|exact Hown].
      exact (subseteq_drop _ _ _ Hin).
Qed.

(** The length of the slice is fuel enough: more changes nothing. *)
Lemma PCToFuncLoop_fuel (fuel1 fuel2 : nat) (funcs : list gosym.Func) (pc : Z) :
  (length funcs <= fuel1)%nat -> (length funcs <= fuel2)%nat ->
  gosym.PCToFuncLoop fuel1 funcs pc = gosym.PCToFuncLoop fuel2 funcs pc.
Proof.
  revert fuel2 funcs. induction fuel1 as [|fuel1 IH]; intros fuel2 funcs H1 H2.
  - destruct funcs; [|simpl in H1; lia]. destruct fuel2; reflexivity.
  - destruct fuel2 as [|fuel2].
    + destruct funcs; [reflexivity | simpl in H2; lia].
    + rewrite !PCToFuncLoop_step. destruct funcs as [|f0 rest]; [reflexivity|].
      assert (0 < length (f0 :: rest))%nat as Hpos by (simpl; lia).
      revert H1 H2 Hpos. generalize (f0 :: rest). intros l H1 H2 Hpos.
      pose proof (Nat.div_lt (length l) 2 Hpos ltac:(lia)) as Hhalf.
      destruct (l !! (length l / 2)%nat) as [g|]; [|reflexivity].
      repeat case_decide; try reflexivity.
      * apply IH; rewrite length_take; lia.
      * apply IH; rewrite length_drop; lia.
Qed.

(** A pc that no function of the table owns resolves to no function. *)
Lemma PCToLine_outside (t : gosym.Table) (pc : Z) :
  (forall fn, fn ∈ gosym.Funcs t -> ~ (gosym.Entry fn <= pc < gosym.End fn)) ->
  gosym.PCToLine t pc = (EmptyString, 0, None).
Proof.
  intros Hout. unfold gosym.PCToLine, gosym.PCToFunc.
  destruct (gosym.PCToFuncLoop _ _ pc) as [fn|] eqn:Hs; [|reflexivity].
  apply PCToFuncLoop_owns in Hs. destruct Hs as [Hin Hown].
  exfalso. exact (Hout fn Hin Hown).
Qed.

Lemma lookup_name (funcs : list gosym.Func) (name : string) (fn : gosym.Func) :
  gosym.lookup funcs name = Some fn ->
  fn ∈ funcs /\ gosym.Name (gosym.FSym fn) = name.
Proof.
  induction funcs as [|f rest IH]; simpl; [discriminate|].
  case_decide as Hn.
  - intros [= <-]. split; [left | exact Hn].
  - intros H. destruct (IH H) as [Hin Hname]. split; [right; exact Hin | exact Hname].
Qed.

(** ** Break *)

(** What [Break] does once the name resolves and no breakpoint is recorded
    for it: one poke of [int3] at the address the line table of the function
    starts at, and, if the poke succeeds, the new map entry. *)
Lemma Break_resolved (fname : string) (w : World) (fn : gosym.Func) :
  gosym.LookupFunc (GoSymTable (dbp w)) fname = Some fn ->
  BreakPoints (dbp w) !! fname = None ->
  Break fname w =
    let addr := uintptr (gosym.PC (gosym.FLineTable fn)) in
    let k := record (PtracePokeDataReq (Pid (dbp w)) addr int3) (os w) in
    if traceable (os w) (Pid (dbp w)) then
      match ptracePoke (mem (os w)) addr int3 with
      | (m, Ok _) =>
          (Return (Ok (breakpointOf fn)),
           {| dbp := withBreakPoint fname (breakpointOf fn) (dbp w);
              os := set_mem m k; stdout := stdout w |})
      | (m, Err e) =>
          (Return (Err e), {| dbp := dbp w; os := set_mem m k; stdout := stdout w |})
      end
    else (Return (Err ESRCH), {| dbp := dbp w; os := k; stdout := stdout w |}).
Proof.
  intros Hfn Hbp. unfold Break, bind, this, syscall, PtracePokeData. simpl.
  rewrite Hfn, Hbp. simpl.
  change (traceable (record _ (os w)) (Pid (dbp w))) with (traceable (os w) (Pid (dbp w))).
  destruct (traceable (os w) (Pid (dbp w))); [|reflexivity].
  destruct (ptracePoke _ _ int3) as [m [n|e]]; reflexivity.
Qed.

Lemma Break_recorded (fname : string) (w : World) (fn : gosym.Func) (bp : BreakPoint) :
  gosym.LookupFunc (GoSymTable (dbp w)) fname = Some fn ->
  BreakPoints (dbp w) !! fname = Some bp ->
  Break fname w = (Return (Err (Errorf "Breakpoint already set" [])), w).
Proof.
  intros Hfn Hbp. unfold Break, bind, this. simpl. rewrite Hfn, Hbp. reflexivity.
Qed.

Lemma Break_unresolved (fname : string) (w : World) :
  gosym.LookupFunc (GoSymTable (dbp w)) fname = None ->
  Break fname w =
    (Return (Err (Errorf ("No function named %s" ++ newline)%string [ArgString fname])), w).
Proof.
  intros Hfn. unfold Break, bind, this. simpl. rewrite Hfn. reflexivity.
Qed.

(** A successful [Break], taken apart. *)
Lemma Break_ok_inv (fname : string) (w w' : World) (bp : BreakPoint) :
  Break fname w = (Return (Ok bp), w') ->
  exists (fn : gosym.Func) (m' : gmap Z byte) (n : nat),
    gosym.LookupFunc (GoSymTable (dbp w)) fname = Some fn /\
    BreakPoints (dbp w) !! fname = None /\
    bp = breakpointOf fn /\
    ptracePoke (mem (os w)) (uintptr (gosym.PC (gosym.FLineTable fn))) int3 = (m', Ok n) /\
    w' = {| dbp := withBreakPoint fname bp (dbp w);
            os := set_mem m'
                    (record (PtracePokeDataReq (Pid (dbp w))
                               (uintptr (gosym.PC (gosym.FLineTable fn))) int3) (os w));
            stdout := stdout w |}.
Proof.
  intros HB.
  destruct (gosym.LookupFunc (GoSymTable (dbp w)) fname) as [fn|] eqn:Hfn.
  - destruct (BreakPoints (dbp w) !! fname) as [old|] eqn:Hbp.
    + rewrite (Break_recorded _ _ _ _ Hfn Hbp) in HB. discriminate.
    + rewrite (Break_resolved _ _ _ Hfn Hbp) in HB. simpl in HB.
      destruct (traceable (os w) (Pid (dbp w))); [|discriminate].
      destruct (ptracePoke _ _ int3) as [m' [n|e]] eqn:Hpoke; [|discriminate].
      injection HB as <- <-.
      exists fn, m', n. repeat split; assumption || reflexivity.
  - rewrite (Break_unresolved _ _ Hfn) in HB. discriminate.
Qed.

(** [Break] never touches the symbol table, and what it adds to the
    breakpoint map is built from the function the name resolves to. *)
Lemma Break_keeps_resolved (fname : string) (w : World) :
  resolved (dbp w) -> resolved (dbp (snd (Break fname w))).
Proof.
  intros Hres.
  destruct (gosym.LookupFunc (GoSymTable (dbp w)) fname) as [fn|] eqn:Hfn.
  - destruct (BreakPoints (dbp w) !! fname) as [old|] eqn:Hbp.
    + rewrite (Break_recorded _ _ _ _ Hfn Hbp). exact Hres.
    + rewrite (Break_resolved _ _ _ Hfn Hbp). simpl.
      destruct (traceable (os w) (Pid (dbp w))); [|exact Hres].
      destruct (ptracePoke _ _ int3) as [m' [n|e]]; [|exact Hres].
      simpl. intros f bp. simpl.
      destruct (decide (fname = f)) as [<-|Hne].
      * rewrite lookup_insert_eq. intros [= <-]. exists fn. split; [exact Hfn | reflexivity].
      * rewrite lookup_insert_ne by exact Hne. apply Hres.
  - rewrite (Break_unresolved _ _ Hfn). exact Hres.
Qed.

(** ** handleResult, Registers, Step, Continue *)

Lemma handleResult_err (e : error) (w : World) :
  handleResult (Some e) w = (Return (Some e), w).
Proof. reflexivity. Qed.

Lemma handleResult_nil (w : World) :
  handleResult None w =
    match Wait (Process (dbp w)) (os w) with
    | (None, k) => (Blocked, {| dbp := dbp w; os := k; stdout := stdout w |})
    | (Some (Err e), k) =>
        (Return (Some e), {| dbp := dbp w; os := k; stdout := stdout w |})
    | (Some (Ok ps), k) =>
        (Return None,
         {| dbp := withProcessState ps (dbp w); os := k; stdout := stdout w |})
    end.
Proof.
  unfold handleResult, bind, this, ProcessWait. simpl.
  destruct (Wait (Process (dbp w)) (os w)) as [[[ps|e]|] k]; reflexivity.
Qed.

Lemma Registers_eq (w : World) :
  Registers w =
    let k := record (PtraceGetRegsReq (Pid (dbp w))) (os w) in
    if traceable (os w) (Pid (dbp w)) then
      (Return (Ok (regs (os w))),
       {| dbp := withRegs (regs (os w)) (dbp w); os := k; stdout := stdout w |})
    else
      (Return (Err (Errorf "Registers():" [ArgError ESRCH])),
       {| dbp := dbp w; os := k; stdout := stdout w |}).
Proof.
  unfold Registers, bind, this, syscall, PtraceGetRegs. simpl.
  change (traceable (record _ (os w)) (Pid (dbp w))) with (traceable (os w) (Pid (dbp w))).
  destruct (traceable (os w) (Pid (dbp w))); reflexivity.
Qed.

(** [Step] and [Continue] when the kernel rejects the request. *)
Lemma Step_rejected (w : World) :
  traceable (os w) (Pid (dbp w)) = false ->
  Step w =
    (Return (Some (Errorf "step failed: " [ArgErrorText ESRCH])),
     issued (PtraceSingleStepReq (Pid (dbp w))) w).
Proof.
  intros Hno. unfold Step, bind, this, syscall, PtraceSingleStep. simpl.
  change (traceable (record _ (os w)) (Pid (dbp w))) with (traceable (os w) (Pid (dbp w))).
  rewrite Hno. reflexivity.
Qed.

Lemma Continue_rejected (w : World) :
  traceable (os w) (Pid (dbp w)) = false ->
  Continue w = (Return (Some ESRCH), issued (PtraceContReq (Pid (dbp w)) 0) w).
Proof.
  intros Hno. unfold Continue, bind, this, syscall, PtraceCont. simpl.
  change (traceable (record _ (os w)) (Pid (dbp w))) with (traceable (os w) (Pid (dbp w))).
  rewrite Hno. reflexivity.
Qed.

(** [Continue] when the kernel resumes the target: the world before the
    wait, then whatever [handleResult] makes of it. *)
Lemma Continue_resumed (w : World) :
  traceable (os w) (Pid (dbp w)) = true ->
  Continue w = handleResult None (resumed Cont (PtraceContReq (Pid (dbp w)) 0) w).
Proof.
  intros Hyes. unfold Continue, bind, this, syscall, PtraceCont. simpl.
  change (traceable (record _ (os w)) (Pid (dbp w))) with (traceable (os w) (Pid (dbp w))).
  rewrite Hyes. reflexivity.
Qed.

(** None of the three writes the symbol table or the breakpoint map. *)
Ltac run_methods :=
  unfold Step, Continue, handleResult, Registers, bind, this, syscall, ProcessWait,
    update, Printf, panic, ret, PtraceSingleStep, PtraceCont, PtraceGetRegs, Wait;
  simpl; repeat (case_match; simpl; simplify_eq); simpl.

Lemma Registers_static (w : World) :
  GoSymTable (dbp (snd (Registers w))) = GoSymTable (dbp w) /\
  BreakPoints (dbp (snd (Registers w))) = BreakPoints (dbp w).
Proof. rewrite Registers_eq. simpl. destruct (traceable _ _); split; reflexivity. Qed.

Lemma Step_static (w : World) :
  GoSymTable (dbp (snd (Step w))) = GoSymTable (dbp w) /\
  BreakPoints (dbp (snd (Step w))) = BreakPoints (dbp w).
Proof. run_methods; split; reflexivity. Qed.

Lemma Continue_static (w : World) :
  GoSymTable (dbp (snd (Continue w))) = GoSymTable (dbp w) /\
  BreakPoints (dbp (snd (Continue w))) = BreakPoints (dbp w).
Proof. run_methods; split; reflexivity. Qed.

Lemma static_resolved (d d' : DebuggedProcess) :
  GoSymTable d' = GoSymTable d /\ BreakPoints d' = BreakPoints d ->
  resolved d -> resolved d'.
Proof. intros [Ht Hb] Hres f bp. rewrite Ht, Hb. apply Hres. Qed.

(** In every state a client can reach, each recorded breakpoint belongs to
    a function of the symbol table. *)
Lemma reachable_resolved (w : World) : reachable w -> resolved (dbp w).
Proof.
  induction 1 as [w Hnew | w c _ IH | w w' _ IH Heq].
  - intros f bp. rewrite Hnew, lookup_empty. discriminate.
  - destruct c; simpl.
    + exact (static_resolved _ _ (Registers_static w) IH).
    + exact (Break_keeps_resolved fname w IH).
    + exact (static_resolved _ _ (Step_static w) IH).
    + exact (static_resolved _ _ (Continue_static w) IH).
  - rewrite Heq. exact IH.
Qed.

(** A successful [Break] has issued one poke of [int3] at the address it
    recorded, and the target's memory differs from before in those four
    bytes only. *)
Lemma Break_ok_poke (fname : string) (w w' : World) (bp : BreakPoint) :
  Break fname w = (Return (Ok bp), w') ->
  log (os w') =
    PtracePokeDataReq (Pid (dbp w)) (uintptr (Addr bp)) int3 :: log (os w) /\
  patched (mem (os w)) (mem (os w')) (uintptr (Addr bp)) int3.
Proof.
  intros HB. apply Break_ok_inv in HB.
  destruct HB as (fn & m' & n & Hfn & Hbp & -> & Hpoke & ->). simpl.
  split; [reflexivity|].
  apply ptracePoke_int3 in Hpoke; [exact (proj2 Hpoke)|].
  apply wrap64_range.
Qed.

(** ** The claims *)

(** C1 (the code departs from the claim).  The claim: what [Break] writes at
    the resolved address is one byte, the trap opcode [0xCC].  The code:
    for [main.compute] at [0x4010a0], whose code starts [55 48 89 e5],
    [Break] succeeds having poked the four bytes [30 78 43 43], the
    characters of the text ["0xCC"], and the target's memory holds those
    four bytes afterwards; [int3] is four bytes long and is not the single
    byte [cc]. *)
Theorem Break_pokes_text_of_opcode :
  let w := Scenario.attached x55 0x401000 0x4010a1 in
  let w' := snd (Break "main.compute" w) in
  fst (Break "main.compute" w) = Return (Ok (breakpointOf (Scenario.compute 0x4010a0))) /\
  log (os w') = [PtracePokeDataReq 42 0x4010a0 [x30; x78; x43; x43]] /\
  loadBytes (mem (os w)) 0x4010a0 4 = Some [x55; x48; x89; xe5] /\
  loadBytes (mem (os w')) 0x4010a0 4 = Some [x30; x78; x43; x43] /\
  length int3 = 4%nat /\ int3 <> [xcc].
Proof.
  cbv zeta. repeat split; try (vm_compute; reflexivity).
  rewrite int3_bytes. discriminate.
Qed.

(** C2 (counterexample).  Two targets run the same executable under the
    same session, and differ in the byte their memory holds where
    [main.compute] starts: [55] in one, as the file has it, and [48] in the
    other, rewritten since it was loaded.  [Break] takes
    both to the very same state, session and target alike, so no operation
    applied after it, whatever it reads of the session, its executable
    included, and of the target, brings back the memory of both. *)
Lemma Break_has_no_inverse :
  let w55 := Scenario.attached x55 0x401000 0x4010a1 in
  let w48 := Scenario.attached x48 0x401000 0x4010a1 in
  dbp w55 = dbp w48 /\
  Executable (dbp w55) = Some Scenario.image /\
  Scenario.imageText !! 0xa0%nat = Some x55 /\
  mem (os w55) !! 0x4010a0 = Some x55 /\
  mem (os w48) !! 0x4010a0 = Some x48 /\
  fst (Break "main.compute" w55)
  = Return (Ok (breakpointOf (Scenario.compute 0x4010a0))) /\
  Break "main.compute" w55 = Break "main.compute" w48 /\
  ~ exists clear : string -> World -> World,
      forall (fname : string) (w w' : World) (bp : BreakPoint),
        Break fname w = (Return (Ok bp), w') ->
        mem (os (clear fname w')) = mem (os w).
Proof.
  cbv zeta.
  split; [reflexivity|]. split; [reflexivity|]. split; [reflexivity|].
  split; [vm_compute; reflexivity|]. split; [vm_compute; reflexivity|].
  split; [vm_compute; reflexivity|]. split; [vm_compute; reflexivity|].
  intros [clear Hclear].
  pose (bp := breakpointOf (Scenario.compute 0x4010a0)).
  pose (w' := Scenario.armed 0x401000 0x4010a1).
  assert (Break "main.compute" (Scenario.attached x55 0x401000 0x4010a1)
          = (Return (Ok bp), w')) as H55 by (vm_compute; reflexivity).
  assert (Break "main.compute" (Scenario.attached x48 0x401000 0x4010a1)
          = (Return (Ok bp), w')) as H48 by (vm_compute; reflexivity).
  apply Hclear in H55. apply Hclear in H48. rewrite H55 in H48.
  apply (f_equal (fun m : gmap Z byte => m !! 0x4010a0)) in H48.
  vm_compute in H48. discriminate.
Qed.

(** C2 (amended).  The package has no clear operation, and [Break] saves
    nothing of what it overwrites: the breakpoint it returns and the session
    it leaves are the same whatever the target's memory held.  A successful
    [Break] has issued one poke at the recorded address, and every byte of
    the target outside the bytes of that poke is as before the set;
    removing the new entry gives back the breakpoint map. *)
Theorem Break_saves_nothing (fname : string) (w w' : World) (bp : BreakPoint) :
  Break fname w = (Return (Ok bp), w') ->
  (forall (m : gmap Z byte) (bp2 : BreakPoint) (w2' : World),
     Break fname {| dbp := dbp w; os := set_mem m (os w); stdout := stdout w |}
     = (Return (Ok bp2), w2') ->
     bp2 = bp /\ dbp w2' = dbp w') /\
  (exists data : list byte,
     log (os w') = PtracePokeDataReq (Pid (dbp w)) (uintptr (Addr bp)) data :: log (os w) /\
     forall a : Z,
       (forall i : nat, (i < length data)%nat ->
          a <> wrap64 (uintptr (Addr bp) + Z.of_nat i)) ->
       mem (os w') !! a = mem (os w) !! a) /\
  delete fname (BreakPoints (dbp w')) = BreakPoints (dbp w).
Proof.
  intros HB. split; [|split].
  - intros m bp2 w2' HB2.
    apply Break_ok_inv in HB. apply Break_ok_inv in HB2. simpl in HB2.
    destruct HB as (fn & m1 & n1 & Hfn & Hbp & -> & _ & ->).
    destruct HB2 as (fn2 & m2 & n2 & Hfn2 & _ & -> & _ & ->).
    rewrite Hfn in Hfn2. injection Hfn2 as <-. split; reflexivity.
  - destruct (Break_ok_poke _ _ _ _ HB) as [Hlog [_ Hframe]].
    exists int3. split; [exact Hlog | exact Hframe].
  - apply Break_ok_inv in HB.
    destruct HB as (fn & m' & n & Hfn & Hbp & -> & Hpoke & ->). simpl.
    rewrite delete_insert_eq. apply delete_id. exact Hbp.
Qed.

Lemma Break_saves_nothing_witness :
  (forall (m : gmap Z byte) (bp2 : BreakPoint) (w2' : World),
     Break "main.compute"
       {| dbp := dbp (Scenario.attached x55 0x401000 0x4010a1);
          os := set_mem m (os (Scenario.attached x55 0x401000 0x4010a1));
          stdout := stdout (Scenario.attached x55 0x401000 0x4010a1) |}
     = (Return (Ok bp2), w2') ->
     bp2 = breakpointOf (Scenario.compute 0x4010a0) /\
     dbp w2' = dbp (Scenario.armed 0x401000 0x4010a1)) /\
  delete "main.compute" (BreakPoints (dbp (Scenario.armed 0x401000 0x4010a1)))
  = BreakPoints (dbp (Scenario.attached x55 0x401000 0x4010a1)).
Proof.
  destruct (Break_saves_nothing "main.compute"
              (Scenario.attached x55 0x401000 0x4010a1)
              (Scenario.armed 0x401000 0x4010a1)
              (breakpointOf (Scenario.compute 0x4010a0)))
    as (Hsame & _ & Hmap); [vm_compute; reflexivity|].
  split; [exact Hsame | exact Hmap].
Defined.

(** C3.  Whenever a breakpoint is recorded for [fname], [Break fname]
    fails and changes nothing: no request is issued, so no byte of the
    target is written, and the breakpoint map is the same.  In every state a
    client can reach the error is "Breakpoint already set", and the recorded
    breakpoint carries the name it is filed under, so the map holds at most
    one breakpoint per function name. *)
Theorem Break_twice_fails (fname : string) (w : World) (bp : BreakPoint) :
  BreakPoints (dbp w) !! fname = Some bp ->
  (exists e : error, Break fname w = (Return (Err e), w)) /\
  (reachable w ->
   Break fname w = (Return (Err (Errorf "Breakpoint already set" [])), w) /\
   FunctionName bp = fname).
Proof.
  intros Hbp. split.
  - destruct (gosym.LookupFunc (GoSymTable (dbp w)) fname) as [fn|] eqn:Hfn.
    + eexists. exact (Break_recorded _ _ _ _ Hfn Hbp).
    + eexists. exact (Break_unresolved _ _ Hfn).
  - intros Hreach.
    destruct (reachable_resolved w Hreach fname bp Hbp) as (fn & Hfn & ->).
    split; [exact (Break_recorded _ _ _ _ Hfn Hbp)|].
    exact (proj2 (lookup_name _ _ _ Hfn)).
Qed.

Lemma Break_twice_fails_witness :
  (exists e : error,
     Break "main.compute" (Scenario.armed 0x401000 0x4010a1)
     = (Return (Err e), Scenario.armed 0x401000 0x4010a1)) /\
  Break "main.compute" (Scenario.armed 0x401000 0x4010a1)
  = (Return (Err (Errorf "Breakpoint already set" [])), Scenario.armed 0x401000 0x4010a1) /\
  FunctionName (breakpointOf (Scenario.compute 0x4010a0)) = "main.compute".
Proof.
  assert (BreakPoints (dbp (Scenario.armed 0x401000 0x4010a1)) !! "main.compute"
          = Some (breakpointOf (Scenario.compute 0x4010a0))) as Hbp
    by (vm_compute; reflexivity).
  destruct (Break_twice_fails "main.compute" (Scenario.armed 0x401000 0x4010a1)
              (breakpointOf (Scenario.compute 0x4010a0)) Hbp) as [Hfail Hset].
  split; [exact Hfail|].
  apply Hset.
  apply (reach_call (Scenario.attached x55 0x401000 0x4010a1) (CallBreak "main.compute")).
  apply reach_new. reflexivity.
Defined.

(** C4.  For a name the symbol table does not know, [Break] fails with the
    error "No function named ..." and leaves the world as it was: the same
    breakpoint map, no request issued, no byte of the target written. *)
Theorem Break_unknown_function (fname : string) (w : World) :
  gosym.LookupFunc (GoSymTable (dbp w)) fname = None ->
  Break fname w =
    (Return (Err (Errorf ("No function named %s" ++ newline)%string [ArgString fname])), w).
Proof. exact (Break_unresolved fname w). Qed.

Lemma Break_unknown_function_witness :
  Break "no_such_fn" (Scenario.attached x55 0x401000 0x4010a1)
  = (Return (Err (Errorf ("No function named %s" ++ newline)%string
                    [ArgString "no_such_fn"])),
     Scenario.attached x55 0x401000 0x4010a1) /\
  size (BreakPoints (dbp (Scenario.attached x55 0x401000 0x4010a1))) = 0%nat.
Proof.
  split.
  - apply (Break_unknown_function "no_such_fn" (Scenario.attached x55 0x401000 0x4010a1)).
    reflexivity.
  - reflexivity.
Defined.

(** Once a wait has reported the end of the target, the kernel grants no
    further trace request on it. *)
Lemma terminated_untraceable (w w' : World) (pid : Z) :
  handleResult None w = (Return None, w') ->
  terminated (ProcessState (dbp w')) ->
  traceable (os w') pid = false.
Proof.
  rewrite handleResult_nil. unfold Wait. simpl.
  case_decide as Hpid.
  - destruct (pending (os w)) as [[st|e]|]; try discriminate.
    intros [= <-]. unfold terminated, traceable. simpl.
    destruct st; simpl; try contradiction; intros _; apply andb_false_r.
  - discriminate.
Qed.

(** C5 (counterexample).  [Continue] has seen the target exit.  [Step] and
    [Continue], called next, both issue their trace request on the dead
    target: the log grows by a single-step request, respectively a continue
    request, and the error is the rejected request's. *)
Lemma Step_on_exited_target_traces :
  let w := Scenario.exited in
  terminated (ProcessState (dbp w)) /\
  log (os w) = [WaitReq 42; PtraceContReq 42 0] /\
  fst (Step w) = Return (Some (Errorf "step failed: " [ArgErrorText ESRCH])) /\
  log (os (snd (Step w))) = [PtraceSingleStepReq 42; WaitReq 42; PtraceContReq 42 0] /\
  fst (Continue w) = Return (Some ESRCH) /\
  log (os (snd (Continue w))) = [PtraceContReq 42 0; WaitReq 42; PtraceContReq 42 0] /\
  log (os (snd (Step w))) <> log (os w) /\
  log (os (snd (Continue w))) <> log (os w).
Proof.
  cbv zeta. repeat split; try (vm_compute; reflexivity); vm_compute; discriminate.
Qed.

(** C5 (amended).  [Step] and [Continue] do not look at [ProcessState];
    each issues its trace request first.  When the kernel does not grant
    it, as for a target that has exited or was killed, the call fails right
    after that one request, with no wait and the session unchanged: [Step]
    with "step failed: " around the kernel's error, [Continue] with the
    kernel's error itself. *)
Theorem Step_Continue_fail_after_request (w : World) :
  traceable (os w) (Pid (dbp w)) = false ->
  Step w =
    (Return (Some (Errorf "step failed: " [ArgErrorText ESRCH])),
     issued (PtraceSingleStepReq (Pid (dbp w))) w) /\
  Continue w = (Return (Some ESRCH), issued (PtraceContReq (Pid (dbp w)) 0) w).
Proof.
  intros Hno. split; [exact (Step_rejected w Hno) | exact (Continue_rejected w Hno)].
Qed.

Lemma Step_Continue_fail_after_request_witness :
  Step Scenario.exited =
    (Return (Some (Errorf "step failed: " [ArgErrorText ESRCH])),
     issued (PtraceSingleStepReq 42) Scenario.exited) /\
  Continue Scenario.exited =
    (Return (Some ESRCH), issued (PtraceContReq 42 0) Scenario.exited).
Proof.
  apply (Step_Continue_fail_after_request Scenario.exited).
  vm_compute. reflexivity.
Defined.

(** C6 (counterexample).  A breakpoint is recorded for [main.compute] and
    the target is stopped exactly on its address.  [Step] succeeds having
    issued a single-step request, a wait and a register read and nothing
    else: no byte is restored before the step and none written after it. *)
Lemma Step_on_breakpoint_is_plain :
  let w := Scenario.armed 0x4010a0 0x4010a1 in
  let bp := breakpointOf (Scenario.compute 0x4010a0) in
  BreakPoints (dbp w) !! "main.compute" = Some bp /\
  RegsPC (regs (os w)) = Addr bp /\
  log (os w) = [PtracePokeDataReq 42 0x4010a0 int3] /\
  fst (Step w) = Return None /\
  log (os (snd (Step w))) =
    [PtraceGetRegsReq 42; WaitReq 42; PtraceSingleStepReq 42;
     PtracePokeDataReq 42 0x4010a0 int3] /\
  filter (fun q => isPoke q = true) (log (os (snd (Step w))))
  = filter (fun q => isPoke q = true) (log (os w)) /\
  mem (os (snd (Step w))) = mem (os w).
Proof.
  cbv zeta. repeat split; vm_compute; reflexivity.
Qed.

(** C6 (amended).  [Step] issues a plain single-step request in every
    case, whether or not the program counter is on a breakpoint; what may
    follow is a wait and a register read.  It never writes to the target:
    the memory afterwards is what the target itself left when it ran, or the
    memory before when the request was not granted. *)
Theorem Step_is_always_plain (w : World) :
  exists later : list Request,
    log (os (snd (Step w))) = later ++ PtraceSingleStepReq (Pid (dbp w)) :: log (os w) /\
    (later = [] \/ later = [WaitReq (Process (dbp w))] \/
     later = [PtraceGetRegsReq (Pid (dbp w)); WaitReq (Process (dbp w))]) /\
    mem (os (snd (Step w))) =
      (if traceable (os w) (Pid (dbp w))
       then run_mem (cpu (os w) SingleStep (mem (os w)) (regs (os w)))
       else mem (os w)) /\
    BreakPoints (dbp (snd (Step w))) = BreakPoints (dbp w).
Proof.
  destruct (traceable (os w) (Pid (dbp w))) eqn:Htr.
  - unfold Step, handleResult, Registers, bind, this, syscall, ProcessWait,
      update, Printf, panic, ret, PtraceSingleStep, PtraceGetRegs, Wait.
    simpl.
    change (traceable (record _ (os w)) (Pid (dbp w))) with (traceable (os w) (Pid (dbp w))).
    rewrite Htr. simpl.
    repeat (case_match; simpl; simplify_eq);
      first [ exists []; repeat split; auto; fail
            | exists [WaitReq (Process (dbp w))]; repeat split; auto; fail
            | exists [PtraceGetRegsReq (Pid (dbp w)); WaitReq (Process (dbp w))];
              repeat split; auto; fail ].
  - rewrite (Step_rejected w Htr). simpl. exists []. repeat split; auto.
Qed.

(** When the single step is granted, the target stops and its program
    counter is owned by no function of the table, [Step] panics: it reads
    [fn.Name] through the nil pointer [PCToLine] returned. *)
Lemma Step_outside_panics (w : World) (sig : Z) :
  traceable (os w) (Pid (dbp w)) = true ->
  Process (dbp w) = Pid (dbp w) ->
  run_wait (cpu (os w) SingleStep (mem (os w)) (regs (os w))) = Ok (Stopped sig) ->
  (forall fn, fn ∈ gosym.Funcs (GoSymTable (dbp w)) ->
     ~ (gosym.Entry fn
        <= Rip (run_regs (cpu (os w) SingleStep (mem (os w)) (regs (os w))))
        < gosym.End fn)) ->
  fst (Step w) = Panic "invalid memory address or nil pointer dereference".
Proof.
  intros Htr Hproc Hrun Hout.
  apply PCToLine_outside in Hout.
  unfold Step, handleResult, Registers, bind, this, syscall, ProcessWait,
    update, Printf, panic, ret, PtraceSingleStep, PtraceGetRegs, Wait.
  simpl.
  change (traceable (record _ (os w)) (Pid (dbp w))) with (traceable (os w) (Pid (dbp w))).
  rewrite Htr. simpl. rewrite Hproc.
  apply andb_prop in Htr. destruct Htr as [Hpid Hstop].
  apply bool_decide_eq_true in Hpid.
  rewrite decide_True by exact Hpid.
  rewrite Hrun. simpl.
  unfold traceable. simpl. rewrite bool_decide_eq_true_2 by exact Hpid. simpl.
  unfold RegsPC. rewrite Hout. reflexivity.
Qed.

(** C7 (the code departs from the claim).  The claim: after a step that
    stops outside every known function, resolution yields nothing and
    [Step] carries on without dereferencing the missing function.  The code:
    the target steps to [0x500000], which [PCToLine] resolves to no function,
    and [Step] panics on reading the name of that function; nothing is
    printed. *)
Theorem Step_panics_outside_functions :
  let w := Scenario.attached x55 0x4010a0 0x500000 in
  gosym.PCToLine (GoSymTable (dbp w)) 0x500000 = (EmptyString, 0, None) /\
  RegsPC (regs (os (snd (Step w)))) = 0x500000 /\
  fst (Step w) = Panic "invalid memory address or nil pointer dereference" /\
  stdout (snd (Step w)) = [].
Proof.
  cbv zeta. split; [vm_compute; reflexivity|]. split; [vm_compute; reflexivity|].
  split; [|vm_compute; reflexivity].
  apply (Step_outside_panics _ Scenario.SIGTRAP); try reflexivity.
  intros fn Hin. apply list_elem_of_singleton in Hin. subst fn. simpl. lia.
Qed.

(** C8 (counterexample).  A breakpoint is recorded for [main.compute] at
    [0x4010a0]; the target, continued, stops on a trap one byte further.
    [Continue] returns nil and nothing else; the session's registers are
    the stale ones, the target's program counter is still [0x4010a1], and
    that is what [Registers] reads next. *)
Lemma Continue_does_not_rewind :
  let w := Scenario.armed 0x401000 0x4010a1 in
  let w' := snd (Continue w) in
  let bp := breakpointOf (Scenario.compute 0x4010a0) in
  BreakPoints (dbp w) !! "main.compute" = Some bp /\
  Addr bp = 0x4010a0 /\
  fst (Continue w) = Return None /\
  ps_status (ProcessState (dbp w')) = Stopped Scenario.SIGTRAP /\
  Regs (dbp w') = Regs (dbp w) /\
  stdout w' = [] /\
  RegsPC (regs (os w')) = Addr bp + 1 /\
  fst (Registers w') = Return (Ok {| Rip := 0x4010a1; Rsp := 0x7ffc0000 |}) /\
  RegsPC (regs (os w')) <> Addr bp.
Proof.
  cbv zeta. repeat split; try (vm_compute; reflexivity). vm_compute. discriminate.
Qed.

(** C8 (amended).  [Continue] returns an error value only: no program
    counter, no classification of the stop.  When it returns nil it has
    issued a continue request and a wait and stored what the wait reported;
    the target's registers and memory are as the target left them, nothing
    rewound, and the session's register copy, its breakpoint map and the
    output are as before. *)
Theorem Continue_reports_nothing (w w' : World) :
  Continue w = (Return None, w') ->
  log (os w') = WaitReq (Process (dbp w)) :: PtraceContReq (Pid (dbp w)) 0 :: log (os w) /\
  regs (os w') = run_regs (cpu (os w) Cont (mem (os w)) (regs (os w))) /\
  mem (os w') = run_mem (cpu (os w) Cont (mem (os w)) (regs (os w))) /\
  (exists st, run_wait (cpu (os w) Cont (mem (os w)) (regs (os w))) = Ok st /\
              ps_status (ProcessState (dbp w')) = st) /\
  Regs (dbp w') = Regs (dbp w) /\
  BreakPoints (dbp w') = BreakPoints (dbp w) /\
  stdout w' = stdout w.
Proof.
  destruct (traceable (os w) (Pid (dbp w))) eqn:Htr.
  - rewrite (Continue_resumed w Htr), handleResult_nil. unfold Wait. simpl.
    case_decide as Hpid; [|discriminate].
    destruct (run_wait (cpu (os w) Cont (mem (os w)) (regs (os w)))) as [st|e] eqn:Hrun;
      [|discriminate].
    intros [= <-]. simpl. repeat split; try reflexivity.
    exists st. split; reflexivity.
  - rewrite (Continue_rejected w Htr). discriminate.
Qed.

Lemma Continue_reports_nothing_witness :
  let w := Scenario.armed 0x401000 0x4010a1 in
  let w' := snd (Continue w) in
  log (os w') = WaitReq (Process (dbp w)) :: PtraceContReq (Pid (dbp w)) 0 :: log (os w) /\
  regs (os w') = run_regs (cpu (os w) Cont (mem (os w)) (regs (os w))) /\
  mem (os w') = run_mem (cpu (os w) Cont (mem (os w)) (regs (os w))) /\
  (exists st, run_wait (cpu (os w) Cont (mem (os w)) (regs (os w))) = Ok st /\
              ps_status (ProcessState (dbp w')) = st) /\
  Regs (dbp w') = Regs (dbp w) /\
  BreakPoints (dbp w') = BreakPoints (dbp w) /\
  stdout w' = stdout w.
Proof.
  cbv zeta.
  apply (Continue_reports_nothing (Scenario.armed 0x401000 0x4010a1)
           (snd (Continue (Scenario.armed 0x401000 0x4010a1)))).
  vm_compute. reflexivity.
Defined.

(** C9 (the code departs from the claim).  The claim: the recorded [Addr]
    is the entry address of the function, and the bytes are written there.
    The code reads [fn.LineTable.PC] where the function's address is meant.
    For a symbol table whose functions share one line table starting at the
    base of the text section, [0x401000], [Break] on [main.compute], whose
    entry is [0x4010a0], returns [Addr = 0x401000] and pokes there; the entry
    of the function is left as it was. *)
Theorem Break_addr_is_not_entry :
  let w := Scenario.attachedShared in
  let fn := Scenario.compute 0x401000 in
  gosym.LookupFunc (GoSymTable (dbp w)) "main.compute" = Some fn /\
  gosym.Entry fn = 0x4010a0 /\
  fst (Break "main.compute" w)
  = Return (Ok {| FunctionName := "main.compute"; Line := 12; Addr := 0x401000 |}) /\
  log (os (snd (Break "main.compute" w))) = [PtracePokeDataReq 42 0x401000 int3] /\
  Addr (breakpointOf fn) <> gosym.Entry fn /\
  loadBytes (mem (os (snd (Break "main.compute" w)))) 0x4010a0 4
  = loadBytes (mem (os w)) 0x4010a0 4.
Proof.
  cbv zeta. repeat split; try (vm_compute; reflexivity). vm_compute. discriminate.
Qed.

(** [Step] and [Continue] when their trace request fails, whatever the
    error: the world is the one the failed request left. *)
Lemma Step_trace_error (w : World) (e : error) :
  fst (PtraceSingleStep (Pid (dbp w)) (os w)) = Some e ->
  Step w =
    (Return (Some (Errorf "step failed: " [ArgErrorText e])),
     {| dbp := dbp w; os := snd (PtraceSingleStep (Pid (dbp w)) (os w));
        stdout := stdout w |}).
Proof.
  intros He. unfold Step, bind, this, syscall. simpl.
  destruct (PtraceSingleStep (Pid (dbp w)) (os w)) as [r k]. simpl in *. subst r.
  reflexivity.
Qed.

Lemma Continue_trace_error (w : World) (e : error) :
  fst (PtraceCont (Pid (dbp w)) 0 (os w)) = Some e ->
  Continue w =
    (Return (Some e),
     {| dbp := dbp w; os := snd (PtraceCont (Pid (dbp w)) 0 (os w));
        stdout := stdout w |}).
Proof.
  intros He. unfold Continue, bind, this, syscall. simpl.
  destruct (PtraceCont (Pid (dbp w)) 0 (os w)) as [r k]. simpl in *. subst r.
  reflexivity.
Qed.

(** C10.  When the trace request of [Step] or [Continue] has failed,
    [handleResult] returns that error at once and the world is as it was:
    no wait is issued and [ProcessState] keeps its value; [Continue] returns
    the error and [Step] wraps it, the session as before the call.
    [ProcessState] changes only when the request succeeded and the wait then
    returned a state, which is the one stored. *)
Theorem handleResult_returns_trace_error (err : option error) (w : World) :
  (forall e : error, err = Some e -> handleResult err w = (Return (Some e), w)) /\
  (forall e : error,
     fst (PtraceSingleStep (Pid (dbp w)) (os w)) = Some e ->
     fst (Step w) = Return (Some (Errorf "step failed: " [ArgErrorText e])) /\
     dbp (snd (Step w)) = dbp w /\
     log (os (snd (Step w))) = PtraceSingleStepReq (Pid (dbp w)) :: log (os w)) /\
  (forall e : error,
     fst (PtraceCont (Pid (dbp w)) 0 (os w)) = Some e ->
     fst (Continue w) = Return (Some e) /\
     dbp (snd (Continue w)) = dbp w /\
     log (os (snd (Continue w))) = PtraceContReq (Pid (dbp w)) 0 :: log (os w)) /\
  (ProcessState (dbp (snd (handleResult err w))) <> ProcessState (dbp w) ->
   err = None /\
   fst (Wait (Process (dbp w)) (os w))
   = Some (Ok (ProcessState (dbp (snd (handleResult err w)))))).
Proof.
  split; [|split; [|split]].
  - intros e ->. reflexivity.
  - intros e He. rewrite (Step_trace_error w e He). simpl.
    repeat split. unfold PtraceSingleStep in *. simpl in *.
    destruct (traceable _ _); [discriminate | reflexivity].
  - intros e He. rewrite (Continue_trace_error w e He). simpl.
    repeat split. unfold PtraceCont in *. simpl in *.
    destruct (traceable _ _); [discriminate | reflexivity].
  - destruct err as [e|]; [intros H; exfalso; apply H; reflexivity|].
    rewrite handleResult_nil.
    destruct (Wait (Process (dbp w)) (os w)) as [[[ps|e]|] k]; simpl.
    + intros _. split; reflexivity.
    + intros H. exfalso. apply H. reflexivity.
    + intros H. exfalso. apply H. reflexivity.
Qed.

Lemma handleResult_returns_trace_error_witness :
  handleResult (Some ESRCH) Scenario.exited = (Return (Some ESRCH), Scenario.exited) /\
  (fst (Step Scenario.exited)
   = Return (Some (Errorf "step failed: " [ArgErrorText ESRCH])) /\
   dbp (snd (Step Scenario.exited)) = dbp Scenario.exited /\
   log (os (snd (Step Scenario.exited)))
   = PtraceSingleStepReq 42 :: log (os Scenario.exited)) /\
  (fst (Continue Scenario.exited) = Return (Some ESRCH) /\
   dbp (snd (Continue Scenario.exited)) = dbp Scenario.exited /\
   log (os (snd (Continue Scenario.exited)))
   = PtraceContReq 42 0 :: log (os Scenario.exited)) /\
  fst (Wait 42 (os (resumed Cont (PtraceContReq 42 0) Scenario.exiting)))
  = Some (Ok {| ps_pid := 42; ps_status := Exited 0 |}).
Proof.
  destruct (handleResult_returns_trace_error (Some ESRCH) Scenario.exited)
    as (Hret & Hstep & Hcont & _).
  destruct (handleResult_returns_trace_error None
              (resumed Cont (PtraceContReq 42 0) Scenario.exiting))
    as (_ & _ & _ & Hstate).
  split; [exact (Hret ESRCH eq_refl)|].
  split; [apply (Hstep ESRCH); vm_compute; reflexivity|].
  split; [apply (Hcont ESRCH); vm_compute; reflexivity|].
  apply Hstate. vm_compute. discriminate.
Defined.

(** * Beyond the claims *)

(** ** The trace facility, continued *)

Ltac outside Ha Hm :=
  rewrite Hm; case_decide; [exfalso; frame Ha; mod_lia | reflexivity].

Ltac trailing_frame m1 Ha Hm1 :=
  match goal with
  | |- context [peekWord m1 ?a2] =>
      let buf2 := fresh "buf2" in let Hpeek2 := fresh "Hpeek2" in
      let Hp2 := fresh "Hp2" in let buf2' := fresh "buf2'" in
      let k2 := fresh "k2" in let Hk2 := fresh "Hk2" in
      let m2 := fresh "m2" in let Hm2 := fresh "Hm2" in
      destruct (peekWord m1 a2) as [buf2|] eqn:Hpeek2;
      [ match goal with
        | |- context [copyAt buf2 0 ?data1] =>
            pose proof (peek_patch_poke m1 a2 buf2 0 data1 Hpeek2 ltac:(lia)) as Hp2;
            destruct (copyAt buf2 0 data1) as [buf2' k2];
            destruct Hp2 as (Hk2 & m2 & -> & Hm2); simpl in Hk2; subst k2
        end;
        simpl fst; rewrite Hm2; case_decide; [exfalso; frame Ha; mod_lia|]
      | simpl fst ]
  end.

(** Whatever becomes of a poke of [int3], no byte outside the four
    addresses of the patch changes. *)
Lemma ptracePoke_int3_frame (m : gmap Z byte) (addr a : Z) :
  0 <= addr < 2 ^ 64 ->
  (forall i : nat, (i < 4)%nat -> a <> wrap64 (addr + Z.of_nat i)) ->
  fst (ptracePoke m addr int3) !! a = m !! a.
Proof.
  intros Haddr Ha. unfold ptracePoke. rewrite int3_bytes.
  remember (addr mod SizeofPtr) as r eqn:Er.
  case_decide as Hr.
  - rewrite pokeInterior_short by (simpl; lia).
    trailing_frame m Ha (I : True); reflexivity.
  - assert (r = 1 \/ r = 2 \/ r = 3 \/ r = 4 \/ r = 5 \/ r = 6 \/ r = 7)
      as Hcases by mod_lia.
    destruct (peekWord m (addr - r)) as [buf|] eqn:Hpeek; [|reflexivity].
    pose proof (peek_patch_poke m _ buf (Z.to_nat r) [x30; x78; x43; x43] Hpeek
                  ltac:(lia)) as Hp.
    destruct (copyAt buf (Z.to_nat r) [x30; x78; x43; x43]) as [buf' k].
    destruct Hp as (Hk & m1 & -> & Hm1).
    rewrite pokeInterior_short by (rewrite length_drop; simpl; lia).
    destruct Hcases as [Hv|[Hv|[Hv|[Hv|[Hv|[Hv|Hv]]]]]];
      rewrite Hv in Hk, Hm1; simpl in Hk; subst k; simpl drop; cbv iota.
    + simpl fst. outside Ha Hm1.
    + simpl fst. outside Ha Hm1.
    + simpl fst. outside Ha Hm1.
    + simpl fst. outside Ha Hm1.
    + trailing_frame m1 Ha Hm1; outside Ha Hm1.
    + trailing_frame m1 Ha Hm1; outside Ha Hm1.
    + trailing_frame m1 Ha Hm1; outside Ha Hm1.
Qed.

Lemma ascending_take (n : nat) (funcs : list gosym.Func) :
  ascending funcs -> ascending (take n funcs).
Proof.
  intros Hasc i j f g Hi Hj Hij.
  apply lookup_take_Some in Hi. apply lookup_take_Some in Hj.
  exact (Hasc i j f g (proj1 Hi) (proj1 Hj) Hij).
Qed.

Lemma ascending_drop (n : nat) (funcs : list gosym.Func) :
  ascending funcs -> ascending (drop n funcs).
Proof.
  intros Hasc i j f g Hi Hj Hij.
  rewrite lookup_drop in Hi. rewrite lookup_drop in Hj.
  apply (Hasc (n + i)%nat (n + j)%nat f g Hi Hj). lia.
Qed.

(** On an ascending table the binary search finds the function that owns
    the pc. *)
Lemma PCToFuncLoop_finds (fuel : nat) (funcs : list gosym.Func) (pc : Z) (i : nat)
    (fn : gosym.Func) :
  ascending funcs -> (length funcs <= fuel)%nat ->
  funcs !! i = Some fn -> gosym.Entry fn <= pc < gosym.End fn ->
  gosym.PCToFuncLoop fuel funcs pc = Some fn.
Proof.
  revert funcs i. induction fuel as [|fuel IH]; intros funcs i Hasc Hlen Hi Hown.
  - apply lookup_lt_Some in Hi. lia.
  - rewrite PCToFuncLoop_step.
    destruct funcs as [|f0 rest]; [discriminate|].
    assert (0 < length (f0 :: rest))%nat as Hpos by (simpl; lia).
    revert Hasc Hlen Hi Hpos. generalize (f0 :: rest). intros l Hasc Hlen Hi Hpos.
    pose proof (Nat.div_lt (length l) 2 Hpos ltac:(lia)) as Hhalf.
    set (m := (length l / 2)%nat) in *.
    destruct (l !! m) as [g|] eqn:Hg;
      [|apply lookup_ge_None in Hg; lia].
    destruct (decide (pc < gosym.Entry g)) as [Hlt|Hge].
    + assert (i < m)%nat as Him.
      { destruct (decide (i < m)%nat) as [|Hn]; [assumption|]. exfalso.
        destruct (decide (i = m)) as [->|Hne].
        - rewrite Hg in Hi. injection Hi as ->. lia.
        - pose proof (Hasc m i g fn Hg Hi ltac:(lia)). lia. }
      apply (IH (take m l) i).
      * apply ascending_take. exact Hasc.
      * rewrite length_take. lia.
      * rewrite lookup_take_lt by exact Him. exact Hi.
      * exact Hown.
    + destruct (decide (gosym.Entry g <= pc /\ pc < gosym.End g)) as [Hg_owns|Hnot].
      * f_equal.
        destruct (Nat.lt_total i m) as [Him|[->|Him]].
        -- pose proof (Hasc i m fn g Hi Hg Him). lia.
        -- rewrite Hg in Hi. injection Hi as ->. reflexivity.
        -- pose proof (Hasc m i g fn Hg Hi Him). lia.
      * assert (m < i)%nat as Him.
        { destruct (Nat.lt_total i m) as [Him|[->|Him]]; [| |assumption]; exfalso.
          - pose proof (Hasc i m fn g Hi Hg Him). lia.
          - rewrite Hg in Hi. injection Hi as ->. lia. }
        apply (IH (drop (S m) l) (i - S m)%nat).
        -- apply ascending_drop. exact Hasc.
        -- rewrite length_drop. lia.
        -- rewrite lookup_drop. rewrite <- Hi. f_equal. lia.
        -- exact Hown.
Qed.

Lemma PCToLine_owner (t : gosym.Table) (pc : Z) (fn : gosym.Func) :
  ascending (gosym.Funcs t) -> fn ∈ gosym.Funcs t ->
  gosym.Entry fn <= pc < gosym.End fn ->
  gosym.PCToLine t pc =
    (fst (gosym.FileLine t fn pc), snd (gosym.FileLine t fn pc), Some fn).
Proof.
  intros Hasc Hin Hown. apply list_elem_of_lookup in Hin. destruct Hin as [i Hi].
  unfold gosym.PCToLine, gosym.PCToFunc.
  rewrite (PCToFuncLoop_finds _ _ pc i fn Hasc (Nat.le_refl _) Hi Hown).
  destruct (gosym.FileLine t fn pc). reflexivity.
Qed.

Ltac open_step :=
  unfold Step, handleResult, Registers, bind, this, syscall, ProcessWait,
    update, Printf, panic, ret, PtraceSingleStep, PtraceGetRegs, Wait;
  simpl.

Lemma granted_pid (k : Kernel) (pid : Z) :
  traceable k pid = true -> pid = tracee k /\ stopped k = true.
Proof.
  unfold traceable. intros H. apply andb_prop in H. destruct H as [Hp Hs].
  apply bool_decide_eq_true in Hp. split; assumption.
Qed.

(** ** Registers *)

(** X1.  [Registers] only reads: the target's memory, registers and trace
    stop are as before and nothing is printed; one register request is
    logged.  Granted, it returns the target's registers and stores them in
    the session, changing no other field; refused, it returns the
    "Registers():" error around the kernel's and the session is unchanged. *)
Theorem Registers_reads_without_disturbing (w : World) :
  mem (os (snd (Registers w))) = mem (os w) /\
  regs (os (snd (Registers w))) = regs (os w) /\
  stopped (os (snd (Registers w))) = stopped (os w) /\
  pending (os (snd (Registers w))) = pending (os w) /\
  log (os (snd (Registers w))) = PtraceGetRegsReq (Pid (dbp w)) :: log (os w) /\
  stdout (snd (Registers w)) = stdout w /\
  (traceable (os w) (Pid (dbp w)) = true ->
   fst (Registers w) = Return (Ok (regs (os w))) /\
   dbp (snd (Registers w)) = withRegs (regs (os w)) (dbp w)) /\
  (traceable (os w) (Pid (dbp w)) = false ->
   fst (Registers w) = Return (Err (Errorf "Registers():" [ArgError ESRCH])) /\
   dbp (snd (Registers w)) = dbp w).
Proof.
  rewrite Registers_eq. simpl.
  destruct (traceable (os w) (Pid (dbp w))); simpl; repeat split; try reflexivity;
    discriminate.
Qed.

Lemma Registers_reads_without_disturbing_witness :
  (fst (Registers (Scenario.attached x55 0x4010a0 0x4010a1))
   = Return (Ok {| Rip := 0x4010a0; Rsp := 0x7ffc0000 |}) /\
   dbp (snd (Registers (Scenario.attached x55 0x4010a0 0x4010a1)))
   = withRegs {| Rip := 0x4010a0; Rsp := 0x7ffc0000 |}
       (dbp (Scenario.attached x55 0x4010a0 0x4010a1))) /\
  (fst (Registers Scenario.exited)
   = Return (Err (Errorf "Registers():" [ArgError ESRCH])) /\
   dbp (snd (Registers Scenario.exited)) = dbp Scenario.exited).
Proof.
  split.
  - apply (Registers_reads_without_disturbing (Scenario.attached x55 0x4010a0 0x4010a1)).
    reflexivity.
  - apply (Registers_reads_without_disturbing Scenario.exited).
    vm_compute. reflexivity.
Defined.

(** ** Break, continued *)

(** X2.  Whether [Break] succeeds or fails, and however far a failing poke
    got, no byte of the target outside the four addresses from the resolved
    address on is changed. *)
Theorem Break_touches_four_bytes_at_most (fname : string) (w : World) (fn : gosym.Func)
    (a : Z) :
  gosym.LookupFunc (GoSymTable (dbp w)) fname = Some fn ->
  (forall i : nat, (i < 4)%nat ->
     a <> wrap64 (uintptr (gosym.PC (gosym.FLineTable fn)) + Z.of_nat i)) ->
  mem (os (snd (Break fname w))) !! a = mem (os w) !! a.
Proof.
  intros Hfn Ha.
  destruct (BreakPoints (dbp w) !! fname) as [old|] eqn:Hbp.
  - rewrite (Break_recorded _ _ _ _ Hfn Hbp). reflexivity.
  - rewrite (Break_resolved _ _ _ Hfn Hbp). simpl.
    destruct (traceable (os w) (Pid (dbp w))); [|reflexivity].
    pose proof (ptracePoke_int3_frame (mem (os w)) _ a
                  (wrap64_range (gosym.PC (gosym.FLineTable fn))) Ha) as Hframe.
    unfold uintptr.
    destruct (ptracePoke (mem (os w)) (wrap64 (gosym.PC (gosym.FLineTable fn))) int3)
      as [m' [n|e]]; exact Hframe.
Qed.

Lemma Break_touches_four_bytes_at_most_witness :
  mem (os (snd (Break "main.compute" (Scenario.attached x55 0x401000 0x4010a1))))
    !! 0x4010a4
  = mem (os (Scenario.attached x55 0x401000 0x4010a1)) !! 0x4010a4.
Proof.
  apply (Break_touches_four_bytes_at_most "main.compute"
           (Scenario.attached x55 0x401000 0x4010a1) (Scenario.compute 0x4010a0)).
  - reflexivity.
  - intros i Hi. destruct i as [|[|[|[|i]]]]; try lia; vm_compute; discriminate.
Defined.



(** X4.  When [Break] returns an error the session is exactly as before: no
    breakpoint is recorded, and the target's registers and the output are
    untouched.  The error is "No function named", "Breakpoint already
    set", or the poke's own error, passed on as it is. *)
Theorem Break_failure_records_nothing (fname : string) (w : World) (e : error) :
  fst (Break fname w) = Return (Err e) ->
  dbp (snd (Break fname w)) = dbp w /\
  regs (os (snd (Break fname w))) = regs (os w) /\
  stdout (snd (Break fname w)) = stdout w /\
  (e = Errorf ("No function named %s" ++ newline)%string [ArgString fname] \/
   e = Errorf "Breakpoint already set" [] \/
   exists fn : gosym.Func,
     gosym.LookupFunc (GoSymTable (dbp w)) fname = Some fn /\
     fst (PtracePokeData (Pid (dbp w)) (uintptr (gosym.PC (gosym.FLineTable fn))) int3 (os w))
     = Err e).
Proof.
  destruct (gosym.LookupFunc (GoSymTable (dbp w)) fname) as [fn|] eqn:Hfn.
  - destruct (BreakPoints (dbp w) !! fname) as [old|] eqn:Hbp.
    + rewrite (Break_recorded _ _ _ _ Hfn Hbp). simpl. intros [= <-].
      repeat split; try reflexivity. right. left. reflexivity.
    + rewrite (Break_resolved _ _ _ Hfn Hbp). unfold PtracePokeData. simpl.
      change (traceable (record _ (os w)) (Pid (dbp w)))
        with (traceable (os w) (Pid (dbp w))).
      destruct (traceable (os w) (Pid (dbp w))).
      * destruct (ptracePoke _ _ int3) as [m' [n|e']] eqn:Hpoke; simpl; [discriminate|].
        intros [= <-]. repeat split; try reflexivity.
        right. right. exists fn. split; [reflexivity|]. rewrite Hpoke. reflexivity.
      * simpl. intros [= <-]. repeat split; try reflexivity.
        right. right. exists fn. split; reflexivity.
  - rewrite (Break_unresolved _ _ Hfn). simpl. intros [= <-].
    repeat split; try reflexivity. left. reflexivity.
Qed.

Lemma Break_failure_records_nothing_witness :
  dbp (snd (Break "main.compute" Scenario.exited)) = dbp Scenario.exited /\
  regs (os (snd (Break "main.compute" Scenario.exited))) = regs (os Scenario.exited) /\
  stdout (snd (Break "main.compute" Scenario.exited)) = stdout Scenario.exited /\
  (ESRCH = Errorf ("No function named %s" ++ newline)%string [ArgString "main.compute"] \/
   ESRCH = Errorf "Breakpoint already set" [] \/
   exists fn : gosym.Func,
     gosym.LookupFunc (GoSymTable (dbp Scenario.exited)) "main.compute" = Some fn /\
     fst (PtracePokeData (Pid (dbp Scenario.exited))
            (uintptr (gosym.PC (gosym.FLineTable fn))) int3 (os Scenario.exited))
     = Err ESRCH).
Proof.
  apply (Break_failure_records_nothing "main.compute" Scenario.exited ESRCH).
  vm_compute. reflexivity.
Defined.

(** ** Step, continued *)

(** X5.  When the step is granted, the target stops and its program counter
    lies in a function of an ascending table, [Step] returns nil, has
    refreshed the session's registers and stored the stop, issued a
    single-step, a wait and a register read, and printed one line naming
    that function with the file and line the table gives for the pc. *)
Theorem Step_reports_owner (w : World) (sig : Z) (fn : gosym.Func) :
  traceable (os w) (Pid (dbp w)) = true ->
  Process (dbp w) = Pid (dbp w) ->
  run_wait (cpu (os w) SingleStep (mem (os w)) (regs (os w))) = Ok (Stopped sig) ->
  ascending (gosym.Funcs (GoSymTable (dbp w))) ->
  fn ∈ gosym.Funcs (GoSymTable (dbp w)) ->
  gosym.Entry fn
  <= Rip (run_regs (cpu (os w) SingleStep (mem (os w)) (regs (os w))))
  < gosym.End fn ->
  fst (Step w) = Return None /\
  stdout (snd (Step w)) =
    stdout w ++
    [(("Stopped at: %s %s:%d" ++ newline)%string,
      [ArgString (gosym.Name (gosym.FSym fn));
       ArgString (fst (gosym.FileLine (GoSymTable (dbp w)) fn
                         (Rip (run_regs (cpu (os w) SingleStep (mem (os w)) (regs (os w)))))));
       ArgInt (snd (gosym.FileLine (GoSymTable (dbp w)) fn
                      (Rip (run_regs (cpu (os w) SingleStep (mem (os w)) (regs (os w)))))))])] /\
  Regs (dbp (snd (Step w))) = run_regs (cpu (os w) SingleStep (mem (os w)) (regs (os w))) /\
  ProcessState (dbp (snd (Step w))) = {| ps_pid := Pid (dbp w); ps_status := Stopped sig |} /\
  log (os (snd (Step w))) =
    PtraceGetRegsReq (Pid (dbp w)) :: WaitReq (Pid (dbp w))
    :: PtraceSingleStepReq (Pid (dbp w)) :: log (os w).
Proof.
  intros Htr Hproc Hrun Hasc Hin Hown.
  pose proof (PCToLine_owner _ _ _ Hasc Hin Hown) as Hline.
  destruct (granted_pid _ _ Htr) as [Hpid _].
  open_step.
  change (traceable (record _ (os w)) (Pid (dbp w))) with (traceable (os w) (Pid (dbp w))).
  rewrite Htr. simpl. rewrite Hproc.
  rewrite decide_True by exact Hpid.
  rewrite Hrun. simpl.
  unfold traceable. simpl. rewrite bool_decide_eq_true_2 by exact Hpid. simpl.
  unfold RegsPC. rewrite Hline. simpl. repeat split; reflexivity.
Qed.

Lemma Step_reports_owner_witness :
  fst (Step (Scenario.attached x55 0x4010a0 0x4010a1)) = Return None /\
  stdout (snd (Step (Scenario.attached x55 0x4010a0 0x4010a1)))
  = [(("Stopped at: %s %s:%d" ++ newline)%string,
      [ArgString "main.compute"; ArgString "main.go"; ArgInt 12])].
Proof.
  destruct (Step_reports_owner (Scenario.attached x55 0x4010a0 0x4010a1)
              Scenario.SIGTRAP (Scenario.compute 0x4010a0)) as (Hnil & Hout & _).
  - reflexivity.
  - reflexivity.
  - reflexivity.
  - intros i j f g Hi Hj Hij. destruct j as [|j]; [lia|]. simpl in Hj. discriminate.
  - simpl. left.
  - simpl. lia.
  - split; [exact Hnil | exact Hout].
Defined.

(** X6.  When the target exits or is killed during the step, [Step] stores
    that state and then fails in [Registers]: the error is the
    "Registers():" one, not "step failed: "; the session's registers are the
    old ones, nothing is printed, and the target can be traced no more. *)
Theorem Step_over_exit (w : World) (st : WaitStatus) :
  traceable (os w) (Pid (dbp w)) = true ->
  Process (dbp w) = Pid (dbp w) ->
  run_wait (cpu (os w) SingleStep (mem (os w)) (regs (os w))) = Ok st ->
  terminated {| ps_pid := Pid (dbp w); ps_status := st |} ->
  fst (Step w) = Return (Some (Errorf "Registers():" [ArgError ESRCH])) /\
  ProcessState (dbp (snd (Step w))) = {| ps_pid := Pid (dbp w); ps_status := st |} /\
  Regs (dbp (snd (Step w))) = Regs (dbp w) /\
  stdout (snd (Step w)) = stdout w /\
  traceable (os (snd (Step w))) (Pid (dbp w)) = false.
Proof.
  intros Htr Hproc Hrun Hterm.
  destruct (granted_pid _ _ Htr) as [Hpid _].
  open_step.
  change (traceable (record _ (os w)) (Pid (dbp w))) with (traceable (os w) (Pid (dbp w))).
  rewrite Htr. simpl. rewrite Hproc.
  rewrite decide_True by exact Hpid.
  rewrite Hrun. simpl.
  unfold traceable. simpl. rewrite bool_decide_eq_true_2 by exact Hpid. simpl.
  unfold terminated in Hterm. simpl in Hterm.
  destruct st; try contradiction; simpl; repeat split; try reflexivity;
    apply andb_false_r.
Qed.

Lemma Step_over_exit_witness :
  fst (Step Scenario.exiting) = Return (Some (Errorf "Registers():" [ArgError ESRCH])) /\
  ProcessState (dbp (snd (Step Scenario.exiting)))
  = {| ps_pid := 42; ps_status := Exited 0 |} /\
  Regs (dbp (snd (Step Scenario.exiting))) = Regs (dbp Scenario.exiting) /\
  stdout (snd (Step Scenario.exiting)) = stdout Scenario.exiting /\
  traceable (os (snd (Step Scenario.exiting))) 42 = false.
Proof.
  apply (Step_over_exit Scenario.exiting (Exited 0)).
  - reflexivity.
  - reflexivity.
  - reflexivity.
  - exact I.
Defined.



(** ** Calls in sequence *)

(** X8.  After [Continue] has returned nil on a stop, [Registers] succeeds
    and returns, and stores in the session, the registers the target
    stopped with. *)
Theorem Continue_then_Registers (w w' : World) (sig : Z) :
  Continue w = (Return None, w') ->
  ps_status (ProcessState (dbp w')) = Stopped sig ->
  fst (Registers w') =
    Return (Ok (run_regs (cpu (os w) Cont (mem (os w)) (regs (os w))))) /\
  Regs (dbp (snd (Registers w'))) = run_regs (cpu (os w) Cont (mem (os w)) (regs (os w))).
Proof.
  destruct (traceable (os w) (Pid (dbp w))) eqn:Htr.
  - destruct (granted_pid _ _ Htr) as [Hpid _].
    rewrite (Continue_resumed w Htr), handleResult_nil. unfold Wait. simpl.
    case_decide as Hproc; [|discriminate].
    destruct (run_wait (cpu (os w) Cont (mem (os w)) (regs (os w)))) as [st|e] eqn:Hrun;
      [|discriminate].
    intros [= <-]. simpl. intros ->.
    rewrite Registers_eq. simpl.
    unfold traceable. simpl. rewrite bool_decide_eq_true_2 by exact Hpid. simpl.
    split; reflexivity.
  - rewrite (Continue_rejected w Htr). discriminate.
Qed.

Lemma Continue_then_Registers_witness :
  fst (Registers (snd (Continue (Scenario.armed 0x401000 0x4010a1))))
  = Return (Ok {| Rip := 0x4010a1; Rsp := 0x7ffc0000 |}) /\
  Regs (dbp (snd (Registers (snd (Continue (Scenario.armed 0x401000 0x4010a1))))))
  = {| Rip := 0x4010a1; Rsp := 0x7ffc0000 |}.
Proof.
  apply (Continue_then_Registers (Scenario.armed 0x401000 0x4010a1)
           (snd (Continue (Scenario.armed 0x401000 0x4010a1))) Scenario.SIGTRAP).
  - vm_compute. reflexivity.
  - vm_compute. reflexivity.
Defined.

Lemma perform_keeps (c : Call) (w : World) :
  Pid (dbp (perform c w)) = Pid (dbp w) /\
  Process (dbp (perform c w)) = Process (dbp w) /\
  GoSymTable (dbp (perform c w)) = GoSymTable (dbp w) /\
  forall (f : string) (bp : BreakPoint),
    BreakPoints (dbp w) !! f = Some bp -> BreakPoints (dbp (perform c w)) !! f = Some bp.
Proof.
  destruct c as [|fname| |]; simpl.
  - rewrite Registers_eq. simpl. destruct (traceable _ _); simpl; auto.
  - destruct (gosym.LookupFunc (GoSymTable (dbp w)) fname) as [fn|] eqn:Hfn.
    + destruct (BreakPoints (dbp w) !! fname) as [old|] eqn:Hbp.
      * rewrite (Break_recorded _ _ _ _ Hfn Hbp). simpl. auto.
      * rewrite (Break_resolved _ _ _ Hfn Hbp). simpl.
        destruct (traceable _ _); simpl; [|auto].
        destruct (ptracePoke _ _ int3) as [m' [n|e]]; simpl; [|auto].
        repeat split; try reflexivity.
        intros f bp Hf. rewrite lookup_insert_ne; [exact Hf|].
        intros ->. rewrite Hbp in Hf. discriminate.
    + rewrite (Break_unresolved _ _ Hfn). simpl. auto.
  - run_methods; auto.
  - run_methods; auto.
Qed.

(** X9.  Over any sequence of calls the process id, the process handle
    and the symbol table of the session stay the same, and a breakpoint once
    recorded stays recorded, unaltered: no method removes or replaces an
    entry of the map. *)
Theorem breakpoints_only_accumulate (calls : list Call) (w : World) :
  Pid (dbp (performAll calls w)) = Pid (dbp w) /\
  Process (dbp (performAll calls w)) = Process (dbp w) /\
  GoSymTable (dbp (performAll calls w)) = GoSymTable (dbp w) /\
  forall (f : string) (bp : BreakPoint),
    BreakPoints (dbp w) !! f = Some bp ->
    BreakPoints (dbp (performAll calls w)) !! f = Some bp.
Proof.
  revert w. induction calls as [|c calls IH]; intros w; simpl.
  - auto.
  - destruct (IH (perform c w)) as (Hp & Hpr & Ht & Hb).
    destruct (perform_keeps c w) as (Hp1 & Hpr1 & Ht1 & Hb1).
    unfold performAll in *. simpl.
    repeat split; try congruence.
    intros f bp Hf. apply Hb. apply Hb1. exact Hf.
Qed.

Lemma breakpoints_only_accumulate_witness :
  BreakPoints
    (dbp (performAll [CallStep; CallBreak "main.compute"; CallContinue; CallRegisters]
            (Scenario.armed 0x4010a0 0x4010a1))) !! "main.compute"
  = Some (breakpointOf (Scenario.compute 0x4010a0)).
Proof.
  apply (breakpoints_only_accumulate
           [CallStep; CallBreak "main.compute"; CallContinue; CallRegisters]
           (Scenario.armed 0x4010a0 0x4010a1)).
  vm_compute. reflexivity.
Defined.

Lemma perform_untraceable (c : Call) (w : World) :
  traceable (os w) (Pid (dbp w)) = false ->
  dbp (perform c w) = dbp w /\ mem (os (perform c w)) = mem (os w) /\
  regs (os (perform c w)) = regs (os w) /\ stdout (perform c w) = stdout w /\
  traceable (os (perform c w)) (Pid (dbp w)) = false.
Proof.
  intros Hno. destruct c as [|fname| |]; simpl.
  - rewrite Registers_eq. simpl. rewrite Hno. simpl. auto.
  - destruct (gosym.LookupFunc (GoSymTable (dbp w)) fname) as [fn|] eqn:Hfn.
    + destruct (BreakPoints (dbp w) !! fname) as [old|] eqn:Hbp.
      * rewrite (Break_recorded _ _ _ _ Hfn Hbp). simpl. auto.
      * rewrite (Break_resolved _ _ _ Hfn Hbp). simpl. rewrite Hno. simpl. auto.
    + rewrite (Break_unresolved _ _ Hfn). simpl. auto.
  - rewrite (Step_rejected w Hno). simpl. auto.
  - rewrite (Continue_rejected w Hno). simpl. auto.
Qed.

(** X10.  Once the kernel grants no trace request on the target, as after
    its exit, no sequence of calls changes the session, the target's memory
    or registers, or the output, and every call made afterwards fails:
    [Registers], [Step] and [Continue] with the rejected request's error,
    [Break] with some error. *)
Theorem untraceable_target_stays_untouched (calls : list Call) (w : World) :
  traceable (os w) (Pid (dbp w)) = false ->
  dbp (performAll calls w) = dbp w /\
  mem (os (performAll calls w)) = mem (os w) /\
  regs (os (performAll calls w)) = regs (os w) /\
  stdout (performAll calls w) = stdout w /\
  fst (Registers (performAll calls w))
  = Return (Err (Errorf "Registers():" [ArgError ESRCH])) /\
  fst (Step (performAll calls w))
  = Return (Some (Errorf "step failed: " [ArgErrorText ESRCH])) /\
  fst (Continue (performAll calls w)) = Return (Some ESRCH) /\
  forall fname : string, exists e : error,
    fst (Break fname (performAll calls w)) = Return (Err e).
Proof.
  revert w. induction calls as [|c calls IH]; intros w Hno.
  - unfold performAll. simpl. repeat split; try reflexivity.
    + rewrite Registers_eq. simpl. rewrite Hno. reflexivity.
    + rewrite (Step_rejected w Hno). reflexivity.
    + rewrite (Continue_rejected w Hno). reflexivity.
    + intros fname.
      destruct (gosym.LookupFunc (GoSymTable (dbp w)) fname) as [fn|] eqn:Hfn.
      * destruct (BreakPoints (dbp w) !! fname) as [old|] eqn:Hbp.
        -- rewrite (Break_recorded _ _ _ _ Hfn Hbp). eauto.
        -- rewrite (Break_resolved _ _ _ Hfn Hbp). simpl. rewrite Hno. eauto.
      * rewrite (Break_unresolved _ _ Hfn). eauto.
  - destruct (perform_untraceable c w Hno) as (Hd & Hm & Hr & Hs & Ht).
    assert (traceable (os (perform c w)) (Pid (dbp (perform c w))) = false) as Hno'
      by (rewrite Hd; exact Ht).
    destruct (IH (perform c w) Hno') as (Hd' & Hm' & Hr' & Hs' & Hrest).
    change (performAll (c :: calls) w) with (performAll calls (perform c w)).
    repeat split; try congruence; apply Hrest.
Qed.

Lemma untraceable_target_stays_untouched_witness :
  dbp (performAll [CallStep; CallBreak "main.compute"; CallContinue] Scenario.exited)
  = dbp Scenario.exited /\
  mem (os (performAll [CallStep; CallBreak "main.compute"; CallContinue] Scenario.exited))
  = mem (os Scenario.exited) /\
  fst (Continue (performAll [CallStep; CallBreak "main.compute"; CallContinue]
                   Scenario.exited))
  = Return (Some ESRCH).
Proof.
  destruct (untraceable_target_stays_untouched
              [CallStep; CallBreak "main.compute"; CallContinue] Scenario.exited)
    as (Hd & Hm & _ & _ & _ & _ & Hc & _).
  - vm_compute. reflexivity.
  - split; [exact Hd|]. split; [exact Hm | exact Hc].
Defined.

(** ** Creating the session *)

Lemma PtraceAttach_granted (pid : Z) (h : Host) :
  fst (PtraceAttach pid h) = None ->
  pid = tracee (target h) /\ refusal h pid = None /\
  PtraceAttach pid h =
    (None, withTarget (attaching (arrival h) (target h)) (note (AttachCall pid) h)).
Proof.
  unfold PtraceAttach. simpl. case_decide as Hpid; [|discriminate].
  destruct (refusal h pid) as [e|] eqn:Href; [discriminate|].
  intros _. repeat split; assumption || reflexivity.
Qed.

Lemma NewDebugProcess_attached (pid : Z) (h : Host) :
  fst (PtraceAttach pid h) = None ->
  NewDebugProcess pid h =
    match arrival h with
    | Err err => (Return (Err err), attachedHost pid h)
    | Ok st =>
        match LoadInformation (blank pid st) (attachedHost pid h) with
        | (Return (Some err), _, h2) => (Return (Err err), h2)
        | (Return None, d, h2) => (Return (Ok d), h2)
        | (Panic msg, _, h2) => (Panic msg, h2)
        | (Blocked, _, h2) => (Blocked, h2)
        end
    end.
Proof.
  intros Hgr. destruct (PtraceAttach_granted pid h Hgr) as (Hpid & Href & Heq).
  unfold NewDebugProcess, FindProcess. rewrite Heq. unfold Wait, attachedHost. simpl.
  rewrite decide_True by exact Hpid.
  destruct (arrival h) as [st|e]; reflexivity.
Qed.

Lemma NewDebugProcess_refused (pid : Z) (h : Host) (e : error) :
  fst (PtraceAttach pid h) = Some e ->
  NewDebugProcess pid h = (Return (Err e), note (AttachCall pid) h).
Proof.
  unfold NewDebugProcess, FindProcess, PtraceAttach. simpl.
  case_decide as Hpid.
  - destruct (refusal h pid) as [e'|]; [|discriminate]. simpl. intros [= <-]. reflexivity.
  - simpl. intros [= <-]. reflexivity.
Qed.

(** Loading only opens the executable: the target and the rest of the host
    are as before, and loading never waits. *)
Lemma LoadInformation_host (d : Loading) (h : Host) :
  snd (LoadInformation d h) = note (OpenCall (procpath (l_Pid d))) h /\
  fst (fst (LoadInformation d h)) <> Blocked.
Proof.
  unfold LoadInformation, findExecutable, obtainGoSymbols, Open. simpl.
  repeat (case_match; simpl in *; simplify_eq); split; reflexivity || discriminate.
Qed.

Lemma findExecutable_ok (d d1 : Loading) (h h1 : Host) :
  findExecutable d h = (Return None, d1, h1) ->
  exists (bytes : list byte) (exe : elf.File),
    openFile h (procpath (l_Pid d)) = Ok bytes /\ NewFile h bytes = Ok exe /\
    d1 = withExecutable exe d /\ h1 = note (OpenCall (procpath (l_Pid d))) h.
Proof.
  unfold findExecutable, Open. simpl.
  destruct (openFile h (procpath (l_Pid d))) as [bytes|e] eqn:Hopen; [|discriminate].
  destruct (NewFile h bytes) as [exe|e] eqn:Hnew; [|discriminate].
  intros [= <- <-]. exists bytes, exe. repeat split; assumption || reflexivity.
Qed.

Lemma obtainGoSymbols_ok (d d1 : Loading) (h h1 : Host) :
  obtainGoSymbols d h = (Return None, d1, h1) ->
  exists (exe : elf.File) (symtab pclntab text : elf.Section)
         (symdat pclndat : list byte) (tab : gosym.Table),
    l_Executable d = Some exe /\
    elf.SectionOf exe ".gosymtab" = Some symtab /\ elf.Data symtab = Ok symdat /\
    elf.SectionOf exe ".gopclntab" = Some pclntab /\ elf.Data pclntab = Ok pclndat /\
    elf.SectionOf exe ".text" = Some text /\
    NewTable h symdat (NewLineTable pclndat (elf.Addr text)) = Ok tab /\
    d1 = withGoSymTable tab d /\ h1 = h.
Proof.
  unfold obtainGoSymbols.
  destruct (l_Executable d) as [exe|] eqn:Hexe; [|discriminate].
  destruct (elf.SectionOf exe ".gosymtab") as [symtab|] eqn:Hs1; [|discriminate].
  destruct (elf.Data symtab) as [symdat|e] eqn:Hd1; [|discriminate].
  destruct (elf.SectionOf exe ".gopclntab") as [pclntab|] eqn:Hs2; [|discriminate].
  destruct (elf.Data pclntab) as [pclndat|e] eqn:Hd2; [|discriminate].
  destruct (elf.SectionOf exe ".text") as [text|] eqn:Hs3; [|discriminate].
  destruct (NewTable h symdat (NewLineTable pclndat (elf.Addr text))) as [tab|e] eqn:Htab;
    [|discriminate].
  intros [= <- <-]. exists exe, symtab, pclntab, text, symdat, pclndat, tab.
  repeat split; reflexivity || assumption.
Qed.

(** X11.  When [NewDebugProcess] returns a session, the attach was granted
    and the wait returned a state, which is stored as it is, a stop or not;
    the executable was opened at [/proc/<pid>/exe] and has the three
    sections; the symbol table is the one built from the data of
    [.gosymtab] and [.gopclntab] with the address of [.text].  The session
    has the pid as [Pid] and [Process], zeroed registers and an empty
    breakpoint map, so it is a state the methods start from. *)
Theorem NewDebugProcess_builds_fresh_session (pid : Z) (h h' : Host) (d : Loading) :
  NewDebugProcess pid h = (Return (Ok d), h') ->
  pid = tracee (target h) /\ refusal h pid = None /\
  h' = note (OpenCall (procpath pid)) (attachedHost pid h) /\
  l_Pid d = pid /\ l_Process d = pid /\
  l_Regs d = {| Rip := 0; Rsp := 0 |} /\
  l_BreakPoints d = ∅ /\
  exists (st : WaitStatus) (bytes : list byte) (exe : elf.File)
         (symtab pclntab text : elf.Section)
         (symdat pclndat : list byte) (tab : gosym.Table) (s : DebuggedProcess),
    arrival h = Ok st /\
    l_ProcessState d = {| ps_pid := pid; ps_status := st |} /\
    openFile h (procpath pid) = Ok bytes /\ NewFile h bytes = Ok exe /\
    elf.SectionOf exe ".gosymtab" = Some symtab /\ elf.Data symtab = Ok symdat /\
    elf.SectionOf exe ".gopclntab" = Some pclntab /\ elf.Data pclntab = Ok pclndat /\
    elf.SectionOf exe ".text" = Some text /\
    NewTable h symdat (NewLineTable pclndat (elf.Addr text)) = Ok tab /\
    l_Executable d = Some exe /\ l_GoSymTable d = Some tab /\
    ready d = Some s /\ GoSymTable s = tab /\ BreakPoints s = ∅ /\
    reachable {| dbp := s; os := target h'; stdout := [] |}.
Proof.
  intros HN.
  destruct (fst (PtraceAttach pid h)) as [e|] eqn:Hatt.
  - rewrite (NewDebugProcess_refused pid h e Hatt) in HN. discriminate.
  - destruct (PtraceAttach_granted pid h Hatt) as (Hpid & Href & _).
    rewrite (NewDebugProcess_attached pid h Hatt) in HN.
    destruct (arrival h) as [st|e] eqn:Harr; [|discriminate].
    unfold LoadInformation in HN.
    destruct (findExecutable (blank pid st) (attachedHost pid h))
      as [[o d1] h1] eqn:Hfind.
    destruct o as [[err|]| |]; try discriminate.
    apply findExecutable_ok in Hfind.
    destruct Hfind as (bytes & exe & Hopen & Hnew & -> & ->).
    destruct (obtainGoSymbols _ _) as [[o d2] h2] eqn:Hsym.
    destruct o as [[err|]| |]; try discriminate.
    injection HN as <- <-.
    apply obtainGoSymbols_ok in Hsym.
    destruct Hsym as (exe' & symtab & pclntab & text & symdat & pclndat & tab &
                      Hexe & Hs1 & Hd1 & Hs2 & Hd2 & Hs3 & Htab & -> & ->).
    simpl in Hexe. injection Hexe as <-.
    repeat split; try assumption; try reflexivity.
    exists st, bytes, exe, symtab, pclntab, text, symdat, pclndat, tab.
    eexists. repeat split; try eassumption; try reflexivity.
    apply reach_new. reflexivity.
Qed.

Lemma NewDebugProcess_builds_fresh_session_witness :
  exists (d : Loading) (s : DebuggedProcess),
    fst (NewDebugProcess 42 (Startup.host None (Ok (Exited 0)) Startup.goProgram))
    = Return (Ok d) /\
    l_ProcessState d = {| ps_pid := 42; ps_status := Exited 0 |} /\
    ready d = Some s /\ BreakPoints s = ∅ /\
    reachable
      {| dbp := s;
         os := target (snd (NewDebugProcess 42
                 (Startup.host None (Ok (Exited 0)) Startup.goProgram)));
         stdout := [] |}.
Proof.
  assert (exists d, NewDebugProcess 42 (Startup.host None (Ok (Exited 0)) Startup.goProgram)
                    = (Return (Ok d),
                       snd (NewDebugProcess 42
                              (Startup.host None (Ok (Exited 0)) Startup.goProgram))))
    as [d HN] by (eexists; vm_compute; reflexivity).
  destruct (NewDebugProcess_builds_fresh_session _ _ _ _ HN)
    as (_ & _ & _ & _ & _ & _ & _ & st & bytes & exe & symtab & pclntab & text & symdat
        & pclndat & tab & s & Harr & Hps & _ & _ & _ & _ & _ & _ & _ & _ & _ & _
        & Hready & _ & Hsb & Hreach).
  exists d, s. injection Harr as <-.
  repeat split; try assumption.
  rewrite HN. reflexivity.
Defined.

(** X12.  When the attach is refused, [NewDebugProcess] returns that error
    and has done nothing else: no wait, no file opened, the target as it
    was.  For a pid that is not the target's the error is [ESRCH]. *)
Theorem NewDebugProcess_attach_refused (pid : Z) (h : Host) (e : error) :
  fst (PtraceAttach pid h) = Some e ->
  fst (NewDebugProcess pid h) = Return (Err e) /\
  target (snd (NewDebugProcess pid h)) = target h /\
  trail (snd (NewDebugProcess pid h)) = AttachCall pid :: trail h /\
  (pid <> tracee (target h) -> e = ESRCH) /\
  (pid = tracee (target h) -> refusal h pid = Some e).
Proof.
  intros Hatt. rewrite (NewDebugProcess_refused pid h e Hatt). simpl.
  repeat split.
  - intros Hne. unfold PtraceAttach in Hatt. simpl in Hatt.
    rewrite decide_False in Hatt by exact Hne. simpl in Hatt. congruence.
  - intros Heq. unfold PtraceAttach in Hatt. simpl in Hatt.
    rewrite decide_True in Hatt by exact Heq.
    destruct (refusal h pid); simpl in Hatt; congruence.
Qed.

Lemma NewDebugProcess_attach_refused_witness :
  fst (NewDebugProcess 42 (Startup.host (Some (Errno 1)) Startup.stop Startup.goProgram))
  = Return (Err (Errno 1)) /\
  target (snd (NewDebugProcess 42
                 (Startup.host (Some (Errno 1)) Startup.stop Startup.goProgram)))
  = Startup.running /\
  trail (snd (NewDebugProcess 42
                (Startup.host (Some (Errno 1)) Startup.stop Startup.goProgram)))
  = [AttachCall 42] /\
  fst (NewDebugProcess 43 (Startup.host None Startup.stop Startup.goProgram))
  = Return (Err ESRCH).
Proof.
  destruct (NewDebugProcess_attach_refused 42
              (Startup.host (Some (Errno 1)) Startup.stop Startup.goProgram) (Errno 1))
    as (Hret & Htarget & Htrail & _ & _); [reflexivity|].
  destruct (NewDebugProcess_attach_refused 43
              (Startup.host None Startup.stop Startup.goProgram) ESRCH)
    as (Hret' & _ & _ & Hesrch & _); [reflexivity|].
  repeat split; assumption.
Defined.

(** X13.  [obtainGoSymbols] does not check what [Section] returns.  For an
    executable that lacks [.gosymtab], or has it readable but lacks
    [.gopclntab], or has both readable but lacks [.text], the session
    creation panics on a nil section instead of returning an error. *)
Theorem NewDebugProcess_panics_without_section (pid : Z) (h : Host) (st : WaitStatus)
    (bytes : list byte) (exe : elf.File) :
  fst (PtraceAttach pid h) = None ->
  arrival h = Ok st ->
  openFile h (procpath pid) = Ok bytes ->
  NewFile h bytes = Ok exe ->
  (elf.SectionOf exe ".gosymtab" = None \/
   exists (symtab : elf.Section) (symdat : list byte),
     elf.SectionOf exe ".gosymtab" = Some symtab /\ elf.Data symtab = Ok symdat /\
     (elf.SectionOf exe ".gopclntab" = None \/
      exists (pclntab : elf.Section) (pclndat : list byte),
        elf.SectionOf exe ".gopclntab" = Some pclntab /\ elf.Data pclntab = Ok pclndat /\
        elf.SectionOf exe ".text" = None)) ->
  fst (NewDebugProcess pid h) = Panic nilDereference.
Proof.
  intros Hatt Harr Hopen Hnew Hmiss.
  rewrite (NewDebugProcess_attached pid h Hatt), Harr.
  unfold LoadInformation, findExecutable, Open. simpl.
  rewrite Hopen, Hnew. unfold obtainGoSymbols. simpl.
  destruct Hmiss as [Hs1|(symtab & symdat & Hs1 & Hd1 & Hrest)]; rewrite Hs1;
    [reflexivity|].
  rewrite Hd1.
  destruct Hrest as [Hs2|(pclntab & pclndat & Hs2 & Hd2 & Hs3)]; rewrite Hs2;
    [reflexivity|].
  rewrite Hd2, Hs3. reflexivity.
Qed.

Lemma NewDebugProcess_panics_without_section_witness :
  fst (NewDebugProcess 42
         (Startup.host None Startup.stop [Startup.textSection; Startup.gosymtabSection]))
  = Panic nilDereference.
Proof.
  apply (NewDebugProcess_panics_without_section 42
           (Startup.host None Startup.stop [Startup.textSection; Startup.gosymtabSection])
           (Stopped Scenario.SIGSTOP)
           [x7f; x45; x4c; x46]
           (Startup.executable [Startup.textSection; Startup.gosymtabSection])).
  - reflexivity.
  - reflexivity.
  - reflexivity.
  - reflexivity.
  - right. exists Startup.gosymtabSection, Startup.symtab.
    split; [reflexivity|]. split; [reflexivity|]. left. reflexivity.
Defined.

(** X14.  Once the attach is granted, [NewDebugProcess] makes one wait and
    nothing more to the target, whatever it returns, a session, an error or
    a panic: the target's memory and registers are untouched and it is never
    resumed or released, so a target that stopped is left stopped under
    trace also when the creation fails. *)
Theorem NewDebugProcess_never_releases (pid : Z) (h : Host) :
  fst (PtraceAttach pid h) = None ->
  target (snd (NewDebugProcess pid h)) = target (attachedHost pid h) /\
  mem (target (snd (NewDebugProcess pid h))) = mem (target h) /\
  regs (target (snd (NewDebugProcess pid h))) = regs (target h) /\
  log (target (snd (NewDebugProcess pid h))) = WaitReq pid :: log (target h) /\
  (forall sig : Z,
     arrival h = Ok (Stopped sig) ->
     stopped (target (snd (NewDebugProcess pid h))) = true) /\
  fst (NewDebugProcess pid h) <> Blocked.
Proof.
  intros Hatt. rewrite (NewDebugProcess_attached pid h Hatt).
  destruct (arrival h) as [st|e] eqn:Harr.
  - destruct (LoadInformation_host (blank pid st) (attachedHost pid h)) as [Hh Hnb].
    destruct (LoadInformation (blank pid st) (attachedHost pid h)) as [[o d] h2].
    simpl in Hh, Hnb. subst h2.
    assert (stopped (target (attachedHost pid h))
            = match st with Stopped _ => true | _ => false end) as Hst
      by (unfold attachedHost; simpl; rewrite Harr; reflexivity).
    destruct o as [[err|]|msg|]; simpl; repeat split; try discriminate;
      try (intros sig [= ->]; exact Hst).
    exfalso. apply Hnb. reflexivity.
  - simpl. repeat split; discriminate.
Qed.

Lemma NewDebugProcess_never_releases_witness :
  fst (NewDebugProcess 42
         (Startup.host None Startup.stop [Startup.textSection; Startup.gosymtabSection]))
  = Panic nilDereference /\
  stopped (target (snd (NewDebugProcess 42
             (Startup.host None Startup.stop
                [Startup.textSection; Startup.gosymtabSection]))))
  = true.
Proof.
  split; [vm_compute; reflexivity|].
  destruct (NewDebugProcess_never_releases 42
              (Startup.host None Startup.stop
                 [Startup.textSection; Startup.gosymtabSection]))
    as (_ & _ & _ & _ & Hstop & _); [reflexivity|].
  apply (Hstop Scenario.SIGSTOP). reflexivity.
Defined.

(** X15.  An error [NewDebugProcess] returns is that of the step that
    failed, passed on as it is: the attach, the wait, the opening of the
    executable, its parsing, the reading of [.gosymtab] or [.gopclntab], or
    the building of the symbol table. *)
Theorem NewDebugProcess_passes_errors_on (pid : Z) (h : Host) (e : error) :
  fst (NewDebugProcess pid h) = Return (Err e) ->
  fst (PtraceAttach pid h) = Some e \/
  (fst (PtraceAttach pid h) = None /\
   (arrival h = Err e \/
    openFile h (procpath pid) = Err e \/
    exists bytes : list byte,
      openFile h (procpath pid) = Ok bytes /\
      (NewFile h bytes = Err e \/
       exists exe : elf.File,
         NewFile h bytes = Ok exe /\
         ((exists s, elf.SectionOf exe ".gosymtab" = Some s /\ elf.Data s = Err e) \/
          (exists s, elf.SectionOf exe ".gopclntab" = Some s /\ elf.Data s = Err e) \/
          (exists symdat pcln, NewTable h symdat pcln = Err e))))).
Proof.
  destruct (fst (PtraceAttach pid h)) as [e0|] eqn:Hatt.
  - rewrite (NewDebugProcess_refused pid h e0 Hatt). simpl. intros [= <-]. left. reflexivity.
  - rewrite (NewDebugProcess_attached pid h Hatt). intros HN. right. split; [reflexivity|].
    destruct (arrival h) as [st|e1] eqn:Harr;
      [|simpl in HN; injection HN as <-; left; reflexivity].
    right. revert HN. unfold LoadInformation, findExecutable, Open. simpl.
    destruct (openFile h (procpath pid)) as [bytes|e1] eqn:Hopen;
      [|simpl; intros [= <-]; left; reflexivity].
    right. exists bytes. split; [reflexivity|]. revert HN.
    destruct (NewFile h bytes) as [exe|e1] eqn:Hnew;
      [|simpl; intros [= <-]; left; reflexivity].
    intros HN. right. exists exe. split; [reflexivity|]. revert HN.
    unfold obtainGoSymbols. simpl.
    destruct (elf.SectionOf exe ".gosymtab") as [s1|] eqn:Hs1; [|discriminate].
    destruct (elf.Data s1) as [symdat|e1] eqn:Hd1;
      [|simpl; intros [= <-]; left; exists s1; split; [reflexivity | assumption]].
    destruct (elf.SectionOf exe ".gopclntab") as [s2|] eqn:Hs2; [|discriminate].
    destruct (elf.Data s2) as [pclndat|e1] eqn:Hd2;
      [|simpl; intros [= <-]; right; left; exists s2; split; [reflexivity | assumption]].
    destruct (elf.SectionOf exe ".text") as [s3|] eqn:Hs3; [|discriminate].
    destruct (NewTable _ symdat _) as [tab|e1] eqn:Htab; [discriminate|].
    simpl. intros [= <-]. right. right. eexists _, _. exact Htab.
Qed.

Lemma NewDebugProcess_passes_errors_on_witness :
  fst (NewDebugProcess 42 (Startup.host None (Err (Errno 4)) Startup.goProgram))
  = Return (Err (Errno 4)) /\
  (fst (PtraceAttach 42 (Startup.host None (Err (Errno 4)) Startup.goProgram))
   = Some (Errno 4) \/
   fst (PtraceAttach 42 (Startup.host None (Err (Errno 4)) Startup.goProgram)) = None).
Proof.
  split; [reflexivity|].
  destruct (NewDebugProcess_passes_errors_on 42
              (Startup.host None (Err (Errno 4)) Startup.goProgram) (Errno 4))
    as [Hatt|[Hatt _]]; [reflexivity | left; exact Hatt | right; exact Hatt].
Defined.
